(** * Jira/Xray bulk data extractor: keyset pagination, catalog fetch,
      record normalisation and the companion membership utility.

    A shallow embedding of [jira-xray-bulk-data-extractor.py] and
    [typify-traditional-team.py].  The remote service is the environment:
    it is a function from the request (its rank in the run and the cursor
    the client sends) to a response.  Python values decoded from JSON are
    the type [pyval]; Python exceptions are the type [exn]. *)

From Stdlib Require Import ZArith List Bool Ascii String Lia.
From Stdlib Require Import Sorting.Sorted Sorting.Permutation Sorting.Mergesort Orders.
Import ListNotations.

Local Open Scope string_scope.
Local Open Scope Z_scope.

(* ================================================================== *)
(** ** Python values and exceptions *)
(* ================================================================== *)

(** What [response.json()] can produce (numbers of the payload are the
    integers).  A dict is an association list read by its first binding of
    a key. *)
#[warnings="-register-all"]
Inductive pyval : Type :=
| PNone : pyval
| PBool : bool -> pyval
| PInt : Z -> pyval
| PStr : string -> pyval
| PList : list pyval -> pyval
| PDict : list (string * pyval) -> pyval.

Inductive exn : Type :=
| AttributeError | TypeError | KeyError | ValueError | IndexError
| HTTPError | JSONDecodeError | ConnectionError | PermissionError | OSError.

Inductive pyresult (A : Type) : Type :=
| Ok : A -> pyresult A
| Raise : exn -> pyresult A.
Arguments Ok {A} _.
Arguments Raise {A} _.

Definition bind {A B : Type} (m : pyresult A) (k : A -> pyresult B) : pyresult B :=
  match m with
  | Ok a => k a
  | Raise e => Raise e
  end.

Notation "x <- m ;; k" := (bind m (fun x => k))
  (at level 61, m at next level, right associativity).
Notation "' p <- m ;; k" := (bind m (fun x => match x with p => k end))
  (at level 61, p pattern, m at next level, right associativity).

Fixpoint mapM {A B : Type} (f : A -> pyresult B) (l : list A) : pyresult (list B) :=
  match l with
  | [] => Ok []
  | a :: l' => b <- f a ;; bs <- mapM f l' ;; Ok (b :: bs)
  end.

Module Py.

Fixpoint lookup (k : string) (d : list (string * pyval)) : option pyval :=
  match d with
  | [] => None
  | (k', v) :: d' => if String.eqb k k' then Some v else lookup k d'
  end.

(** Keys of a dict in insertion order, each once. *)
Fixpoint keys (d : list (string * pyval)) : list string :=
  match d with
  | [] => []
  | (k, _) :: d' => k :: filter (fun k' => negb (String.eqb k k')) (keys d')
  end.

(** [bool(v)] *)
Definition truthy (v : pyval) : bool :=
  match v with
  | PNone => false
  | PBool b => b
  | PInt z => negb (z =? 0)
  | PStr s => negb (s =? "")%string
  | PList l => match l with [] => false | _ => true end
  | PDict d => match d with [] => false | _ => true end
  end.

(** [a or b] *)
Definition or (a b : pyval) : pyval := if truthy a then a else b.

(** [v.get(k, default)]: only a dict has the method. *)
Definition get (v : pyval) (k : string) (default : pyval) : pyresult pyval :=
  match v with
  | PDict d => Ok (match lookup k d with Some x => x | None => default end)
  | _ => Raise AttributeError
  end.

(** [v[k]] for a string key [k]. *)
Definition subscript (v : pyval) (k : string) : pyresult pyval :=
  match v with
  | PDict d => match lookup k d with Some x => Ok x | None => Raise KeyError end
  | _ => Raise TypeError
  end.

Definition chars (s : string) : list pyval :=
  map (fun c => PStr (String c EmptyString)) (list_ascii_of_string s).

(** The items a [for] loop, [list.extend] or [str.join] draws from [v]. *)
Definition iter (v : pyval) : pyresult (list pyval) :=
  match v with
  | PList l => Ok l
  | PDict d => Ok (map PStr (keys d))
  | PStr s => Ok (chars s)
  | _ => Raise TypeError
  end.

(** [v[-1]] *)
Definition last_item (v : pyval) : pyresult pyval :=
  match v with
  | PList l => match rev l with x :: _ => Ok x | [] => Raise IndexError end
  | PStr s => match rev (chars s) with x :: _ => Ok x | [] => Raise IndexError end
  | PDict _ => Raise KeyError
  | _ => Raise TypeError
  end.

(** [sep.join(items)]: every item has to be a [str]. *)
Fixpoint join (sep : string) (items : list pyval) : pyresult string :=
  match items with
  | [] => Ok ""
  | PStr s :: [] => Ok s
  | PStr s :: rest => t <- join sep rest ;; Ok (s ++ sep ++ t)%string
  | _ :: _ => Raise TypeError
  end.

Fixpoint substring_of (t s : string) : bool :=
  String.prefix t s ||
  match s with
  | EmptyString => false
  | String _ s' => substring_of t s'
  end.

(** [k in v] for a string [k]. *)
Definition contains (k : string) (v : pyval) : pyresult bool :=
  match v with
  | PDict d => Ok (match lookup k d with Some _ => true | None => false end)
  | PList l =>
      Ok (existsb (fun x => match x with PStr s => String.eqb k s | _ => false end) l)
  | PStr s => Ok (substring_of k s)
  | _ => Raise TypeError
  end.

(** [s.split(sep)[0]] for a one-character [sep]: what precedes its
    first occurrence. *)
Fixpoint before_first (sep : ascii) (s : string) : string :=
  match s with
  | EmptyString => EmptyString
  | String c s' => if Ascii.eqb c sep then EmptyString else String c (before_first sep s')
  end.

(** [v.split(sep)[0]]: only a [str] has the method. *)
Definition split_head (v : pyval) (sep : ascii) : pyresult string :=
  match v with
  | PStr s => Ok (before_first sep s)
  | _ => Raise AttributeError
  end.

End Py.

(* ================================================================== *)
(** ** The remote service *)
(* ================================================================== *)

(** What [session.get] gives back: an exception of the transport, or a
    response with its status code and its body, [None] when the body is
    not JSON ([response.json()] raises). *)
Inductive response : Type :=
| Transport : response
| Http : Z -> option pyval -> response.

(** The search endpoint, for one project: the answer to the request of
    rank [n] (from 0) that carries the cursor [c] in its JQL. *)
Definition server : Type := nat -> option pyval -> response.

Inductive event : Type :=
| InfoQueryingCatalog
| SuccessFoundProjects (n : nat)
| CriticalErrorListingProjects
| SafetyLimitReached
| AccessDenied
| ErrorInProject
| WarningNoProjects
| RecordsRetrieved (n : nat)
| EmptyOrAccessDenied
| GlobalSummary (records projects : nat)
| WarningNoData.

(** [response.raise_for_status()] *)
Definition raise_for_status (status : Z) : pyresult unit :=
  if (400 <=? status) && (status <? 600) then Raise HTTPError else Ok tt.

(** [response.json()] *)
Definition json (body : option pyval) : pyresult pyval :=
  match body with
  | Some v => Ok v
  | None => Raise JSONDecodeError
  end.

(* ================================================================== *)
(** ** STEP 2: extraction per project *)
(* ================================================================== *)

Definition SAFETY_LIMIT : Z := 50000.
Definition max_results : Z := 100.

(** The variables the [while True] loop updates, and the number of page
    requests sent so far. *)
Record state : Type := mkState {
  project_issues : list pyval;
  last_seen_id : option pyval;
  requests : nat
}.

(** What the call leaves behind: the list returned, the lines printed and
    the number of page requests sent. *)
Record outcome : Type := mkOutcome {
  returned : list pyval;
  printed : list event;
  sent : nat
}.

Inductive step_result : Type :=
| Continue : state -> step_result
| Return : outcome -> step_result.

Definition init : state := mkState [] None 0.

Definition len (l : list pyval) : Z := Z.of_nat (List.length l).

(** The three statements after the page is decoded; the list may already
    be extended when the cursor cannot be read. *)
Definition extend_and_advance (st : state) (issues : pyval) : step_result :=
  match Py.iter issues with
  | Raise _ =>
      Return (mkOutcome (project_issues st) [ErrorInProject] (S (requests st)))
  | Ok items =>
      let extended := (project_issues st ++ items)%list in
      match (last <- Py.last_item issues ;; Py.subscript last "id") with
      | Raise _ => Return (mkOutcome extended [ErrorInProject] (S (requests st)))
      | Ok id => Continue (mkState extended (Some id) (S (requests st)))
      end
  end.

(** One pass through the body of the loop. *)
Definition iteration (srv : server) (st : state) : step_result :=
  if SAFETY_LIMIT <=? len (project_issues st) then
    Return (mkOutcome (project_issues st) [SafetyLimitReached] (requests st))
  else
    match srv (requests st) (last_seen_id st) with
    | Transport =>
        Return (mkOutcome (project_issues st) [ErrorInProject] (S (requests st)))
    | Http status body =>
        if (status =? 401) || (status =? 403) then
          Return (mkOutcome [] [AccessDenied] (S (requests st)))
        else
          match (_ <- raise_for_status status ;;
                 data <- json body ;;
                 Py.get data "issues" (PList [])) with
          | Raise _ =>
              Return (mkOutcome (project_issues st) [ErrorInProject] (S (requests st)))
          | Ok issues =>
              if negb (Py.truthy issues) then
                Return (mkOutcome (project_issues st) [] (S (requests st)))
              else extend_and_advance st issues
          end
    end.

(** The loop, with a bound on the number of passes. *)
Fixpoint loop (fuel : nat) (srv : server) (st : state) : option outcome :=
  match fuel with
  | O => None
  | S fuel' =>
      match iteration srv st with
      | Return o => Some o
      | Continue st' => loop fuel' srv st'
      end
  end.

Definition enough_fuel : nat := S (Z.to_nat SAFETY_LIMIT).

Definition get_issues_from_project (srv : server) : option outcome :=
  loop enough_fuel srv init.

(** The states the loop passes through: [reach srv n st] when [st] is the
    state at the top of the loop after [n] pages were appended. *)
Inductive reach (srv : server) : nat -> state -> Prop :=
| reach_init : reach srv 0 init
| reach_next : forall n st st',
    reach srv n st -> iteration srv st = Continue st' -> reach srv (S n) st'.

(* ================================================================== *)
(** ** STEP 1: project discovery *)
(* ================================================================== *)

(** The body of the [try] of [get_all_accessible_projects], with the
    lines it prints before it returns or raises. *)
Definition list_projects (resp : response) : list event * pyresult (list pyval) :=
  match resp with
  | Transport => ([], Raise ConnectionError)
  | Http status body =>
      match (_ <- raise_for_status status ;;
             projects_data <- json body ;;
             ps <- Py.iter projects_data ;;
             mapM (fun p => Py.subscript p "key") ps) with
      | Raise e => ([], Raise e)
      | Ok project_keys =>
          ([SuccessFoundProjects (List.length project_keys)],
           _ <- Py.join ", " (firstn 5 project_keys) ;; Ok project_keys)
      end
  end.

Definition get_all_accessible_projects (resp : response) : list pyval * list event :=
  match list_projects resp with
  | (out, Ok project_keys) => (project_keys, InfoQueryingCatalog :: out)
  | (out, Raise _) =>
      ([], InfoQueryingCatalog :: out ++ [CriticalErrorListingProjects])%list
  end.

(* ================================================================== *)
(** ** Dates *)
(* ================================================================== *)

Record datetime : Type := mkDatetime {
  year : Z; month : Z; day : Z;
  hour : Z; minute : Z; second : Z; microsecond : Z;
  utcoffset : option Z
}.

Module Iso.

Definition digit (c : ascii) : option Z :=
  let n := Z.of_nat (nat_of_ascii c) in
  if (48 <=? n) && (n <=? 57) then Some (n - 48) else None.

(** Exactly [n] decimal digits. *)
Fixpoint number (n : nat) (acc : Z) (s : list ascii) : pyresult (Z * list ascii) :=
  match n with
  | O => Ok (acc, s)
  | S n' =>
      match s with
      | c :: s' =>
          match digit c with
          | Some d => number n' (10 * acc + d) s'
          | None => Raise ValueError
          end
      | [] => Raise ValueError
      end
  end.

Definition expect (c : ascii) (s : list ascii) : pyresult (list ascii) :=
  match s with
  | c' :: s' => if Ascii.eqb c c' then Ok s' else Raise ValueError
  | [] => Raise ValueError
  end.

Definition require (b : bool) : pyresult unit :=
  if b then Ok tt else Raise ValueError.

Definition is_leap (y : Z) : bool :=
  (y mod 4 =? 0) && (negb (y mod 100 =? 0) || (y mod 400 =? 0)).

Definition days_in_month (y m : Z) : Z :=
  if m =? 2 then (if is_leap y then 29 else 28)
  else if (m =? 4) || (m =? 6) || (m =? 9) || (m =? 11) then 30
  else 31.

(** [YYYY-MM-DD] *)
Definition date (s : list ascii) : pyresult (Z * Z * Z * list ascii) :=
  '(y, s) <- number 4 0 s ;;
  s <- expect "-" s ;;
  '(m, s) <- number 2 0 s ;;
  s <- expect "-" s ;;
  '(d, s) <- number 2 0 s ;;
  _ <- require ((1 <=? y) && (1 <=? m) && (m <=? 12)
              && (1 <=? d) && (d <=? days_in_month y m)) ;;
  Ok (y, m, d, s).

(** [.fff] or [.ffffff], in microseconds. *)
Definition fraction (s : list ascii) : pyresult (Z * list ascii) :=
  match number 6 0 s with
  | Ok r => Ok r
  | Raise _ => '(ms, s) <- number 3 0 s ;; Ok (1000 * ms, s)
  end.

(** [HH[:MM[:SS[.fff[fff]]]]] *)
Definition clock (s : list ascii) : pyresult (Z * Z * Z * Z * list ascii) :=
  '(h, s) <- number 2 0 s ;;
  match s with
  | ":"%char :: s =>
      '(m, s) <- number 2 0 s ;;
      match s with
      | ":"%char :: s =>
          '(sec, s) <- number 2 0 s ;;
          match s with
          | "."%char :: s => '(us, s) <- fraction s ;; Ok (h, m, sec, us, s)
          | _ => Ok (h, m, sec, 0, s)
          end
      | _ => Ok (h, m, 0, 0, s)
      end
  | _ => Ok (h, 0, 0, 0, s)
  end.

(** [+HH:MM[:SS[.ffffff]]], in microseconds east of UTC. *)
Definition offset (s : list ascii) : pyresult (option Z) :=
  match s with
  | [] => Ok None
  | c :: s =>
      sign <- (if Ascii.eqb c "+" then Ok 1
               else if Ascii.eqb c "-" then Ok (-1) else Raise ValueError) ;;
      '(h, s) <- number 2 0 s ;;
      s <- expect ":" s ;;
      '(m, s) <- number 2 0 s ;;
      '(sec, us, s) <-
          match s with
          | ":"%char :: s =>
              '(sec, s) <- number 2 0 s ;;
              match s with
              | "."%char :: s => '(us, s) <- number 6 0 s ;; Ok (sec, us, s)
              | _ => Ok (sec, 0, s)
              end
          | _ => Ok (0, 0, s)
          end ;;
      _ <- require (match s with [] => true | _ => false end) ;;
      _ <- require ((m <=? 59) && (sec <=? 59) && (h <=? 23)) ;;
      Ok (Some (sign * (((h * 60 + m) * 60 + sec) * 1000000 + us)))
  end.

End Iso.

(** [datetime.fromisoformat], a function of Python's library: the format
    its documentation gives,
    [YYYY-MM-DD[*HH[:MM[:SS[.fff[fff]]]][+HH:MM[:SS[.ffffff]]]]], where [*]
    is any one character; [ValueError] otherwise. *)
Definition fromisoformat (date_string : string) : pyresult datetime :=
  '(y, m, d, s) <- Iso.date (list_ascii_of_string date_string) ;;
  match s with
  | [] => Ok (mkDatetime y m d 0 0 0 0 None)
  | _ :: s =>
      '(h, mi, sec, us, s) <- Iso.clock s ;;
      tz <- Iso.offset s ;;
      _ <- Iso.require ((h <=? 23) && (mi <=? 59) && (sec <=? 59)) ;;
      Ok (mkDatetime y m d h mi sec us tz)
  end.

Definition digit_char (d : Z) : ascii := ascii_of_nat (48 + Z.to_nat d).

Fixpoint zero_padded (width : nat) (z : Z) : string :=
  match width with
  | O => ""
  | S w => (zero_padded w (z / 10) ++ String (digit_char (z mod 10)) "")%string
  end.

(** [dt.strftime('%Y-%m-%d')] *)
Definition strftime_Ymd (dt : datetime) : string :=
  (zero_padded 4 (year dt) ++ "-" ++ zero_padded 2 (month dt) ++ "-"
   ++ zero_padded 2 (day dt))%string.

(* ================================================================== *)
(** ** STEP 3: the rows of the report *)
(* ================================================================== *)

Definition JIRA_BASE_URL : string := "https://bancoicbc.atlassian.net".

(** An f-string: its literal pieces and the values it formats. *)
Inductive fpiece : Type :=
| Lit : string -> fpiece
| Fmt : pyval -> fpiece.

Record row : Type := mkRow {
  Project_Key : pyval;
  Key : pyval;
  Issue_Type : pyval;
  Summary : pyval;
  Creation_Date : pyval;
  Creation_Month : pyval;
  Creation_Year : pyval;
  Updated : pyval;
  Reporter_Name : pyval;
  Reporter_AccountID : pyval;
  Assignee_Name : pyval;
  Assignee_AccountID : pyval;
  Status : pyval;
  Priority : pyval;
  Resolution : pyval;
  Components : pyval;
  Labels : pyval;
  Fix_Versions : pyval;
  Linked_Issues : pyval;
  Original_Estimate : pyval;
  Link : list fpiece
}.

Definition NA : pyval := PStr "N/A".
Definition empty_dict : pyval := PDict [].

(** [[x[k1][k2] for x in xs if k1 in x]] *)
Fixpoint linked_keys (k1 k2 : string) (xs : list pyval) : pyresult (list pyval) :=
  match xs with
  | [] => Ok []
  | x :: xs' =>
      present <- Py.contains k1 x ;;
      if present then
        inner <- Py.subscript x k1 ;;
        k <- Py.subscript inner k2 ;;
        ks <- linked_keys k1 k2 xs' ;;
        Ok (k :: ks)
      else linked_keys k1 k2 xs'
  end.

(** [", ".join([c['name'] for c in fields.get(k, [])])] *)
Definition joined_names (fields : pyval) (k : string) : pyresult pyval :=
  v <- Py.get fields k (PList []) ;;
  items <- Py.iter v ;;
  names <- mapM (fun c => Py.subscript c "name") items ;;
  s <- Py.join ", " names ;;
  Ok (PStr s).

Section Normalizer.

(** The parser of the date, [datetime.fromisoformat]. *)
Variable parse : string -> pyresult datetime.

(** The date block: the three values it leaves in [creation_date_only],
    [creation_month] and [creation_year]. *)
Definition creation (fields : pyval) : pyresult (pyval * pyval * pyval) :=
  created_datetime_str <- Py.get fields "created" (PStr "") ;;
  if Py.truthy created_datetime_str then
    match (head <- Py.split_head created_datetime_str "." ;;
           created_dt_obj <- parse head ;;
           Ok (PStr (strftime_Ymd created_dt_obj),
               PInt (month created_dt_obj),
               PInt (year created_dt_obj))) with
    | Ok t => Ok t
    | Raise ValueError => Ok (NA, NA, NA)
    | Raise e => Raise e
    end
  else Ok (NA, NA, NA).

(** The body of the [for issue in issues] loop. *)
Definition normalize (issue : pyval) : pyresult row :=
  key <- Py.get issue "key" NA ;;
  fields <- Py.get issue "fields" empty_dict ;;
  project_info <- Py.get fields "project" empty_dict ;;
  issuetype_info <- Py.get fields "issuetype" empty_dict ;;
  reporter <- Py.get fields "reporter" PNone ;;
  let reporter_info := Py.or reporter empty_dict in
  assignee <- Py.get fields "assignee" PNone ;;
  let assignee_info := Py.or assignee empty_dict in
  priority <- Py.get fields "priority" PNone ;;
  let priority_info := Py.or priority empty_dict in
  resolution <- Py.get fields "resolution" PNone ;;
  let resolution_info := Py.or resolution empty_dict in
  components <- joined_names fields "components" ;;
  fix_versions <- joined_names fields "fixVersions" ;;
  labels <- (v <- Py.get fields "labels" (PList []) ;;
             items <- Py.iter v ;;
             s <- Py.join ", " items ;; Ok (PStr s)) ;;
  outward <- (v <- Py.get fields "issuelinks" (PList []) ;;
              items <- Py.iter v ;;
              linked_keys "outwardIssue" "key" items) ;;
  inward <- (v <- Py.get fields "issuelinks" (PList []) ;;
             items <- Py.iter v ;;
             linked_keys "inwardIssue" "key" items) ;;
  linked_issues <- Py.join ", " (outward ++ inward)%list ;;
  time_estimate <- Py.get fields "timeoriginalestimate" PNone ;;
  reporter_name <- Py.get reporter_info "displayName" PNone ;;
  reporter_id <- Py.get reporter_info "accountId" PNone ;;
  assignee_name <- Py.get assignee_info "displayName" PNone ;;
  assignee_id <- Py.get assignee_info "accountId" PNone ;;
  let final_reporter_display := Py.or (Py.or reporter_name reporter_id) (PStr "Unknown") in
  let final_assignee_display := Py.or (Py.or assignee_name assignee_id) (PStr "Unassigned") in
  issue_type_name <- Py.get issuetype_info "name" PNone ;;
  issue_type_id <- Py.get issuetype_info "id" PNone ;;
  let final_issue_type_display :=
    Py.or (Py.or issue_type_name issue_type_id) (PStr "N/A (Corrupt)") in
  '(creation_date_only, creation_month, creation_year) <- creation fields ;;
  project_key <- Py.get project_info "key" NA ;;
  summary <- Py.get fields "summary" (PStr "No Summary") ;;
  updated <- (u <- Py.get fields "updated" NA ;;
              s <- Py.split_head u "T" ;; Ok (PStr s)) ;;
  status <- (s <- Py.get fields "status" empty_dict ;; Py.get s "name" NA) ;;
  priority_name <- Py.get priority_info "name" (PStr "Normal") ;;
  resolution_name <- Py.get resolution_info "name" (PStr "Unresolved") ;;
  Ok {| Project_Key := project_key;
        Key := key;
        Issue_Type := final_issue_type_display;
        Summary := summary;
        Creation_Date := creation_date_only;
        Creation_Month := creation_month;
        Creation_Year := creation_year;
        Updated := updated;
        Reporter_Name := final_reporter_display;
        Reporter_AccountID := Py.or reporter_id NA;
        Assignee_Name := final_assignee_display;
        Assignee_AccountID := Py.or assignee_id NA;
        Status := status;
        Priority := priority_name;
        Resolution := resolution_name;
        Components := components;
        Labels := labels;
        Fix_Versions := fix_versions;
        Linked_Issues := PStr linked_issues;
        Original_Estimate :=
          match time_estimate with PNone => PInt 0 | v => v end;
        Link := [Lit JIRA_BASE_URL; Lit "/browse/"; Fmt key] |}.

(** What [df.to_excel] does with the rows is the sink's business. *)
Variable to_excel : list row -> pyresult unit.

Inductive report_event : Type :=
| InfoGeneratingReport (n : nat)
| SuccessExcelSaved
| ErrorCloseExcel
| CriticalExcelError.

(** [generate_excel_report]: the lines printed and the rows handed to
    the sink, or the exception that leaves the function. *)
Definition generate_excel_report (issues : list pyval)
  : pyresult (list report_event * option (list row)) :=
  match issues with
  | [] => Ok ([], None)
  | _ =>
      rows <- mapM normalize issues ;;
      match to_excel rows with
      | Ok _ => Ok ([InfoGeneratingReport (List.length issues); SuccessExcelSaved], Some rows)
      | Raise PermissionError =>
          Ok ([InfoGeneratingReport (List.length issues); ErrorCloseExcel], Some rows)
      | Raise _ =>
          Ok ([InfoGeneratingReport (List.length issues); CriticalExcelError], Some rows)
      end
  end.

End Normalizer.

(* ================================================================== *)
(** ** MAIN *)
(* ================================================================== *)

(** The terminal states of the run: [NoData] when no report is produced
    (the [exit()] after an empty catalog, or an empty aggregate),
    [ReportEmitted] when [generate_excel_report] was run on the
    aggregate. *)
Inductive final_state : Type := NoData | ReportEmitted.

Record run : Type := mkRun {
  final : final_state;
  lines : list event;
  page_requests : nat;
  report_lines : list report_event;
  handed_to_sink : option (list row)
}.

(** The [for i, proj_key in enumerate(projects_list, 1)] loop: the
    aggregate, the lines printed and the page requests sent. *)
Fixpoint sweep (srv : pyval -> server) (projects_list master_list : list pyval)
  : option (list pyval * list event * nat) :=
  match projects_list with
  | [] => Some (master_list, [], O)
  | proj_key :: rest =>
      match get_issues_from_project (srv proj_key) with
      | None => None
      | Some o =>
          let issues := returned o in
          let '(master_list', line) :=
            match issues with
            | [] => (master_list, EmptyOrAccessDenied)
            | _ => ((master_list ++ issues)%list, RecordsRetrieved (List.length issues))
            end in
          match sweep srv rest master_list' with
          | None => None
          | Some (m, out, n) => Some (m, (printed o ++ line :: out)%list, (sent o + n)%nat)
          end
      end
  end.

Section Orchestrator.

Variable parse : string -> pyresult datetime.
Variable to_excel : list row -> pyresult unit.

(** The [__main__] block, run against the catalog response and the
    search endpoint of every project. *)
Definition main (catalog : response) (srv : pyval -> server) : option (pyresult run) :=
  let '(projects_list, out) := get_all_accessible_projects catalog in
  match projects_list with
  | [] => Some (Ok (mkRun NoData (out ++ [WarningNoProjects])%list O [] None))
  | _ =>
      match sweep srv projects_list [] with
      | None => None
      | Some (master_list, out', n) =>
          match master_list with
          | [] => Some (Ok (mkRun NoData (out ++ out' ++ [WarningNoData])%list n [] None))
          | _ =>
              match generate_excel_report parse to_excel master_list with
              | Raise e => Some (Raise e)
              | Ok (rl, rows) =>
                  Some (Ok (mkRun ReportEmitted
                              (out ++ out' ++
                               [GlobalSummary (List.length master_list)
                                              (List.length projects_list)])%list
                              n rl rows))
              end
          end
      end
  end.

End Orchestrator.

(* ================================================================== *)
(** ** The companion utility, [typify-traditional-team.py] *)
(* ================================================================== *)

Module Typify.

Definition lst : list string :=
  [ "Adrian Prizont"; "Alejandro Scarpatti"; "Ariel.etchepare";
    "Cristian Goldenhorn"; "Daniel Rodriguez"; "daniel.guerra";
    "elizabeth.elman"; "Fernando Biancardi"; "Gaston Tabares";
    "Jorge Zembo"; "juan.perna"; "Julian Piquin"; "LAURA.CANTERO";
    "Nicolas Pardo"; "Odemara Montes"; "Osorio, Leonel Alberto";
    "Sergio Moramarco"; "Sergio Motta"; "Silvia Navarrane"; "Sueiro, Paula" ].

(** A cell of the table: text, a number, or empty. *)
Inductive cell : Type :=
| CStr : string -> cell
| CInt : Z -> cell
| CNaN : cell.

Definition cell_eqb (a b : cell) : bool :=
  match a, b with
  | CStr s, CStr t => String.eqb s t
  | CInt x, CInt y => x =? y
  | CNaN, CNaN => true
  | _, _ => false
  end.

(** A table: its columns in order, each with its values by row.  The
    readers give every column a name of its own. *)
Definition dataframe : Type := list (string * list cell).

Definition columns (df : dataframe) : list string := map fst df.

Fixpoint column (name : string) (df : dataframe) : option (list cell) :=
  match df with
  | [] => None
  | (n, vs) :: df' => if String.eqb name n then Some vs else column name df'
  end.

(** [df[name] = values]: an existing column is overwritten in place, a
    new one is appended. *)
Fixpoint assign (name : string) (values : list cell) (df : dataframe) : dataframe :=
  match df with
  | [] => [(name, values)]
  | (n, vs) :: df' =>
      if String.eqb name n then (n, values) :: df'
      else (n, vs) :: assign name values df'
  end.

(** [series.isin(lookup_list).astype(int)] *)
Definition isin (series : list cell) (lookup_list : list cell) : list cell :=
  map (fun v => if existsb (cell_eqb v) lookup_list then CInt 1 else CInt 0) series.

(** [s.replace(old, new)] for a non-empty [old]: every occurrence, from
    the left, without overlap. *)
Fixpoint replace_from (old new : string) (skip : nat) (s : string) : string :=
  match s with
  | EmptyString => EmptyString
  | String c s' =>
      match skip with
      | S k => replace_from old new k s'
      | O =>
          if String.prefix old s
          then (new ++ replace_from old new (String.length old - 1) s')%string
          else String c (replace_from old new O s')
      end
  end.

Definition replace (old new s : string) : string := replace_from old new O s.

Definition output_filename (file_path : string) : string :=
  replace ".xlsx" "_updated.xlsx" file_path.

(** The file system the utility sees. *)
Record files : Type := mkFiles {
  exists_ : string -> bool;
  read_excel : string -> pyresult dataframe;
  read_csv : string -> pyresult dataframe
}.

Inductive result : Type :=
| FileNotFound
| CouldNotRead
| ColumnNotFound
| Saved (output : string) (df : dataframe) (matches : Z).

Definition total (series : list cell) : Z :=
  fold_right (fun v acc => match v with CInt z => z + acc | _ => acc end) 0 series.

(** What the call does: the message it stops on, or the table it asks
    [to_excel] to write and the file name it gives it. *)
Definition add_binary_column_from_list (fs : files) (file_path column_to_check : string)
           (lookup_list : list cell) (new_column_name : string) : result :=
  if negb (exists_ fs file_path) then FileNotFound
  else
    let loaded :=
      match read_excel fs file_path with
      | Ok df => Ok df
      | Raise _ => read_csv fs file_path
      end in
    match loaded with
    | Raise _ => CouldNotRead
    | Ok df =>
        match column column_to_check df with
        | None => ColumnNotFound
        | Some series =>
            let flags := isin series lookup_list in
            Saved (output_filename file_path) (assign new_column_name flags df)
                  (total flags)
        end
    end.

End Typify.


(* ================================================================== *)
(** ** Measures and assumptions on the service *)
(* ================================================================== *)

(** The passes still possible from a state. *)
Definition room (st : state) : nat := Z.to_nat (SAFETY_LIMIT - len (project_issues st)).

(** Pages of [P] items at most keep the accumulated list under the cap
    plus [P]. *)
Definition pages_bounded (srv : server) (P : Z) : Prop :=
  forall n c status data issues items,
    srv n c = Http status (Some data) ->
    Py.get data "issues" (PList []) = Ok issues ->
    Py.iter issues = Ok items ->
    len items <= P.


(** A failure of the fetch of the catalog: the transport raises, the
    status is an error status (401 and 403 among them), the body is not
    JSON, or the JSON is not a sequence of objects that have a [key]. *)
Inductive catalog_failure : response -> Prop :=
| catalog_transport : catalog_failure Transport
| catalog_status : forall status body,
    400 <= status < 600 -> catalog_failure (Http status body)
| catalog_not_json : forall status, catalog_failure (Http status None)
| catalog_not_iterable : forall status data e,
    Py.iter data = Raise e -> catalog_failure (Http status (Some data))
| catalog_no_key : forall status data ps e,
    Py.iter data = Ok ps -> mapM (fun p => Py.subscript p "key") ps = Raise e ->
    catalog_failure (Http status (Some data)).

(* ================================================================== *)
(** ** Servers used as concrete inputs *)
(* ================================================================== *)

Definition issue_with_id (z : Z) : pyval := PDict [("id", PInt z)].

Definition page_of (issues : list pyval) : response :=
  Http 200 (Some (PDict [("issues", PList issues)])).

Fixpoint countdown (n : nat) (from : Z) : list Z :=
  match n with
  | O => []
  | S n' => (from - 1) :: countdown n' (from - 1)
  end.

(** A project with many issues, served 99 at a time in descending order
    of id below the cursor. *)
Definition short_pages : server := fun _ cursor =>
  let top := match cursor with Some (PInt z) => z | _ => 1000000 end in
  page_of (map issue_with_id (countdown 99 top)).

(** One page of two issues, then the status [status]. *)
Definition page_then_status (status : Z) : server := fun n _ =>
  match n with
  | O => page_of [issue_with_id 7; issue_with_id 4]
  | _ => Http status None
  end.

(** One page of two issues, then the transport fails. *)
Definition page_then_drop : server := fun n _ =>
  match n with
  | O => page_of [issue_with_id 7; issue_with_id 4]
  | _ => Transport
  end.

Definition after_first_page : state :=
  mkState [issue_with_id 7; issue_with_id 4] (Some (PInt 4)) 1.

(** A project without issues. *)
Definition no_issues : server := fun _ _ => page_of [].

(* ================================================================== *)
(** ** A service that honours the query *)
(* ================================================================== *)

(** Ids in descending order. *)
Module IdDesc <: Orders.TotalLeBool.
Definition t : Type := Z.
Definition leb (x y : Z) : bool := y <=? x.
Theorem leb_total : forall a1 a2, leb a1 a2 = true \/ leb a2 a1 = true.
Proof. intros a1 a2. unfold leb. rewrite !Z.leb_le. lia. Qed.
End IdDesc.

Module ByIdDesc := Sort IdDesc.

Section Honest.

(** The issue the service sends for an id, and the id it reads in the
    cursor of [id < cursor]. *)
Variable issue_of : Z -> pyval.
Variable id_in_jql : pyval -> option Z.

(** The ids of the issues of the project that match the filter. *)
Variable matching : list Z.

(** The size of the page the service would send to the request of rank
    [n]; it sends no more than [maxResults]. *)
Variable page_size : nat -> nat.

Definition page_length (n : nat) : nat := Nat.min (page_size n) (Z.to_nat max_results).

(** The service answers every request with the first issues, in
    descending order of id, among the matching ones below the cursor. *)
Definition honest : server := fun n cursor =>
  let ordered := ByIdDesc.sort matching in
  match cursor with
  | None => page_of (map issue_of (firstn (page_length n) ordered))
  | Some c =>
      match id_in_jql c with
      | Some z =>
          page_of (map issue_of (firstn (page_length n) (filter (fun i => i <? z) ordered)))
      | None => Http 400 None
      end
  end.



End Honest.

Definition int_id (v : pyval) : option Z :=
  match v with
  | PInt z => Some z
  | _ => None
  end.

(* ================================================================== *)
(** ** Issues and files used as concrete inputs *)
(* ================================================================== *)

Definition issue_2025 : pyval :=
  PDict [("key", PStr "ABC-1");
         ("fields", PDict [("created", PStr "2025-11-22T22:16:22.000-0300")])].

Definition issue_corrupt_date : pyval :=
  PDict [("key", PStr "ABC-2");
         ("fields", PDict [("created", PStr "22/11/2025 22:16")])].

(** [{"key": "ABC-3", "fields": {"project": null}}] *)
Definition issue_null_project : pyval :=
  PDict [("key", PStr "ABC-3"); ("fields", PDict [("project", PNone)])].

(** An issue whose [priority], [status] and [resolution] are objects with
    a null [name]. *)
Definition issue_null_names : pyval :=
  PDict [("key", PStr "ABC-4");
         ("fields", PDict [("priority", PDict [("name", PNone)]);
                           ("status", PDict [("name", PNone)]);
                           ("resolution", PDict [("name", PNone)])])].

Module TypifyInputs.
Import Typify.

Definition report : dataframe :=
  [("Key", [CStr "ABC-1"; CStr "ABC-2"]);
   ("Reporter Name", [CStr "juan.perna"; CStr "Juan Perna"])].

(** A CSV file: the spreadsheet reader fails on it, the CSV reader reads
    it. *)
Definition csv_only : files :=
  mkFiles (fun _ => true) (fun _ => Raise ValueError) (fun _ => Ok report).

End TypifyInputs.

(* ================================================================== *)
(** ** Further definitions for the properties of the run *)
(* ================================================================== *)

(** The issues the call returns for the project [proj_key]. *)
Definition issues_of (srv : pyval -> server) (proj_key : pyval) : list pyval :=
  match get_issues_from_project (srv proj_key) with
  | Some o => returned o
  | None => []
  end.

Definition is_str (v : pyval) : bool :=
  match v with
  | PStr _ => true
  | _ => false
  end.

Definition is_dict (v : pyval) : bool :=
  match v with
  | PDict _ => true
  | _ => false
  end.

(** [d.get(k, default)] on the bindings of a dict. *)
Definition value_or (k : string) (d : list (string * pyval)) (default : pyval) : pyval :=
  match Py.lookup k d with
  | Some v => v
  | None => default
  end.

(** [a or b or ... or default]: the first value that is truthy. *)
Fixpoint first_truthy (candidates : list pyval) (default : pyval) : pyval :=
  match candidates with
  | [] => default
  | v :: rest => if Py.truthy v then v else first_truthy rest default
  end.

(** The row of an issue that has a key and nothing else. *)
Definition default_row (key : pyval) : row :=
  {| Project_Key := PStr "N/A";
     Key := key;
     Issue_Type := PStr "N/A (Corrupt)";
     Summary := PStr "No Summary";
     Creation_Date := PStr "N/A";
     Creation_Month := PStr "N/A";
     Creation_Year := PStr "N/A";
     Updated := PStr "N/A";
     Reporter_Name := PStr "Unknown";
     Reporter_AccountID := PStr "N/A";
     Assignee_Name := PStr "Unassigned";
     Assignee_AccountID := PStr "N/A";
     Status := PStr "N/A";
     Priority := PStr "Normal";
     Resolution := PStr "Unresolved";
     Components := PStr "";
     Labels := PStr "";
     Fix_Versions := PStr "";
     Linked_Issues := PStr "";
     Original_Estimate := PInt 0;
     Link := [Lit JIRA_BASE_URL; Lit "/browse/"; Fmt key] |}.

(** An issue with people, a type, an estimate and an update date. *)
Definition issue_full : pyval :=
  PDict [("key", PStr "ABC-7");
         ("fields",
          PDict [("issuetype", PDict [("id", PStr "10004")]);
                 ("reporter", PDict [("displayName", PStr "");
                                     ("accountId", PStr "5b10a2844c20165700ede21g")]);
                 ("assignee", PNone);
                 ("timeoriginalestimate", PInt 3600);
                 ("updated", PStr "2025-11-23T08:00:01.000-0300");
                 ("created", PStr "2025-11-22T22:16:22.000-0300")])].

Definition fields_full : list (string * pyval) :=
  [("issuetype", PDict [("id", PStr "10004")]);
   ("reporter", PDict [("displayName", PStr "");
                       ("accountId", PStr "5b10a2844c20165700ede21g")]);
   ("assignee", PNone);
   ("timeoriginalestimate", PInt 3600);
   ("updated", PStr "2025-11-23T08:00:01.000-0300");
   ("created", PStr "2025-11-22T22:16:22.000-0300")].

(* ================================================================== *)
(** ** The issues that get a row *)
(* ================================================================== *)

(** The field [k] is absent, or its value passes [P]. *)
Definition absent_or (P : pyval -> bool) (k : string) (f : list (string * pyval)) : bool :=
  match Py.lookup k f with
  | Some v => P v
  | None => true
  end.

(** The value is falsy (null, false, 0, empty), or it passes [P]. *)
Definition falsy_or (P : pyval -> bool) (v : pyval) : bool :=
  negb (Py.truthy v) || P v.

(** The value can be iterated and all its items pass [P]. *)
Definition items_all (P : pyval -> bool) (v : pyval) : bool :=
  match Py.iter v with
  | Ok items => forallb P items
  | Raise _ => false
  end.

(** [c['name']] is text. *)
Definition named (c : pyval) : bool :=
  match Py.subscript c "name" with
  | Ok (PStr _) => true
  | _ => false
  end.

(** [k in link] can be asked, and when it holds [link[k]['key']] is
    text. *)
Definition link_ok (k : string) (link : pyval) : bool :=
  match Py.contains k link with
  | Ok true =>
      match (inner <- Py.subscript link k ;; Py.subscript inner "key") with
      | Ok (PStr _) => true
      | _ => false
      end
  | Ok false => true
  | Raise _ => false
  end.

Definition fields_ok (f : list (string * pyval)) : bool :=
  absent_or is_dict "project" f &&
  absent_or is_dict "issuetype" f &&
  absent_or is_dict "status" f &&
  absent_or (falsy_or is_dict) "reporter" f &&
  absent_or (falsy_or is_dict) "assignee" f &&
  absent_or (falsy_or is_dict) "priority" f &&
  absent_or (falsy_or is_dict) "resolution" f &&
  absent_or (items_all named) "components" f &&
  absent_or (items_all named) "fixVersions" f &&
  absent_or (items_all is_str) "labels" f &&
  absent_or (items_all (link_ok "outwardIssue")) "issuelinks" f &&
  absent_or (items_all (link_ok "inwardIssue")) "issuelinks" f &&
  absent_or (falsy_or is_str) "created" f &&
  absent_or is_str "updated" f.

(** The issue is an object whose [fields], when there, is an object with
    fields of the shapes the normalizer can read. *)
Definition normalizable (issue : pyval) : bool :=
  match Py.get issue "fields" empty_dict with
  | Ok (PDict f) => fields_ok f
  | _ => false
  end.

(** An issue with every field of the projection. *)
Definition issue_complete : pyval :=
  PDict [("id", PStr "10234"); ("key", PStr "ABC-9");
         ("fields",
          PDict [("summary", PStr "Login fails");
                 ("project", PDict [("key", PStr "ABC")]);
                 ("issuetype", PDict [("name", PStr "Bug"); ("id", PStr "10004")]);
                 ("status", PDict [("name", PStr "Open")]);
                 ("reporter", PDict [("displayName", PStr "Ana");
                                     ("accountId", PStr "a1")]);
                 ("assignee", PNone);
                 ("priority", PDict [("name", PStr "High")]);
                 ("resolution", PNone);
                 ("components", PList [PDict [("name", PStr "web")];
                                       PDict [("name", PStr "api")]]);
                 ("fixVersions", PList []);
                 ("labels", PList [PStr "regression"]);
                 ("issuelinks",
                  PList [PDict [("outwardIssue", PDict [("key", PStr "ABC-2")])];
                         PDict [("inwardIssue", PDict [("key", PStr "ABC-3")])]]);
                 ("timeoriginalestimate", PNone);
                 ("created", PStr "2025-11-22T22:16:22.000-0300");
                 ("updated", PStr "2025-11-23T08:00:01.000-0300")])].
(* ================================================================== *)
(** ** The loop: progress, fuel, reachable states *)
(* ================================================================== *)

Lemma keys_nonempty (d : list (string * pyval)) : d <> [] -> Py.keys d <> [].
Proof.
  destruct d as [|[k v] d']; [congruence | simpl; discriminate].
Qed.

(** A page that is truthy and can be iterated has at least one item. *)
Lemma truthy_items (v : pyval) (items : list pyval) :
  Py.truthy v = true -> Py.iter v = Ok items -> (0 < len items).
Proof.
  unfold len.
  destruct v as [| b | z | s | l | d]; simpl; intros Ht Hi; try discriminate;
    injection Hi as <-.
  - destruct s as [|c s']; [discriminate | ].
    unfold Py.chars; simpl. lia.
  - destruct l; [discriminate | simpl; lia].
  - destruct d as [|[k x] d']; [discriminate | simpl; lia].
Qed.

Lemma len_app (a b : list pyval) : len (a ++ b) = len a + len b.
Proof. unfold len. rewrite length_app. lia. Qed.

Lemma extend_and_advance_continue (st st' : state) (issues : pyval) :
  extend_and_advance st issues = Continue st' ->
  exists items id,
    Py.iter issues = Ok items /\
    st' = mkState (project_issues st ++ items) (Some id) (S (requests st)).
Proof.
  unfold extend_and_advance.
  destruct (Py.iter issues) as [items|e]; [|discriminate].
  destruct (bind _ _) as [id|e]; [|discriminate].
  intros H; injection H as <-. eauto.
Qed.

(** What a pass that goes round again has done: the cap was not reached,
    the server answered with a page, and the page was appended. *)
Lemma iteration_continue (srv : server) (st st' : state) :
  iteration srv st = Continue st' ->
  len (project_issues st) < SAFETY_LIMIT /\
  exists status data issues items id,
    srv (requests st) (last_seen_id st) = Http status (Some data) /\
    Py.get data "issues" (PList []) = Ok issues /\
    Py.truthy issues = true /\
    Py.iter issues = Ok items /\
    st' = mkState (project_issues st ++ items) (Some id) (S (requests st)).
Proof.
  unfold iteration. intros H.
  destruct (SAFETY_LIMIT <=? len (project_issues st)) eqn:Hcap; [discriminate|].
  apply Z.leb_gt in Hcap. split; [exact Hcap|].
  destruct (srv (requests st) (last_seen_id st)) as [|status body]; [discriminate|].
  destruct ((status =? 401) || (status =? 403)); [discriminate|].
  destruct (raise_for_status status) as [[]|e]; cbn [bind] in H; [|discriminate].
  destruct body as [data|]; cbn [bind json] in H; [|discriminate].
  destruct (Py.get data "issues" (PList [])) as [issues|e] eqn:Hget; [|discriminate].
  destruct (Py.truthy issues) eqn:Ht; cbn [negb] in H; [|discriminate].
  apply extend_and_advance_continue in H as (items & id & Hi & ->).
  exists status, data, issues, items, id. auto.
Qed.

Lemma iteration_progress (srv : server) (st st' : state) :
  iteration srv st = Continue st' ->
  len (project_issues st) < SAFETY_LIMIT /\
  len (project_issues st) < len (project_issues st') /\
  requests st' = S (requests st).
Proof.
  intros H. apply iteration_continue in H as (Hcap & status & data & issues & items & id
                                               & _ & _ & Ht & Hi & ->).
  simpl. rewrite len_app. pose proof (truthy_items _ _ Ht Hi). lia.
Qed.

Lemma iteration_return_sent (srv : server) (st : state) (o : outcome) :
  iteration srv st = Return o ->
  (sent o = requests st /\ SAFETY_LIMIT <= len (project_issues st)) \/
  (sent o = S (requests st) /\ len (project_issues st) < SAFETY_LIMIT).
Proof.
  unfold iteration.
  destruct (SAFETY_LIMIT <=? len (project_issues st)) eqn:Hcap.
  - apply Z.leb_le in Hcap. intros H; injection H as <-. left; auto.
  - apply Z.leb_gt in Hcap. intros H. right. split; [|exact Hcap].
    destruct (srv _ _) as [|status body]; [injection H as <-; reflexivity|].
    destruct (_ || _); [injection H as <-; reflexivity|].
    destruct (bind _ _) as [issues|e]; [|injection H as <-; reflexivity].
    destruct (negb _); [injection H as <-; reflexivity|].
    unfold extend_and_advance in H.
    destruct (Py.iter issues); [|injection H as <-; reflexivity].
    destruct (bind _ _); [discriminate|injection H as <-; reflexivity].
Qed.


Lemma loop_total (srv : server) (fuel : nat) (st : state) :
  (room st < fuel)%nat ->
  exists o, loop fuel srv st = Some o /\ (sent o <= requests st + room st)%nat.
Proof.
  revert st. induction fuel as [|fuel IH]; intros st Hroom; [lia|].
  simpl. destruct (iteration srv st) as [st'|o] eqn:Hit.
  - apply iteration_progress in Hit as (Hcap & Hlen & Hreq).
    destruct (IH st') as (o & Ho & Hs); [unfold room in *; lia|].
    exists o. split; [exact Ho|]. unfold room in *. lia.
  - exists o. split; [reflexivity|].
    apply iteration_return_sent in Hit as [[-> Hcap]|[-> Hcap]]; unfold room; lia.
Qed.

Lemma loop_more_fuel (srv : server) (fuel fuel' : nat) (st : state) (o : outcome) :
  loop fuel srv st = Some o -> (fuel <= fuel')%nat -> loop fuel' srv st = Some o.
Proof.
  revert fuel' st. induction fuel as [|fuel IH]; intros fuel' st H Hle; [discriminate|].
  destruct fuel' as [|fuel']; [lia|].
  simpl in *. destruct (iteration srv st); [|exact H].
  apply IH; [exact H | lia].
Qed.

Lemma get_issues_from_project_total (srv : server) :
  exists o, get_issues_from_project srv = Some o /\ (sent o <= Z.to_nat SAFETY_LIMIT)%nat.
Proof.
  assert (Hroom : room init = Z.to_nat SAFETY_LIMIT).
  { unfold room, init, len. cbn [project_issues List.length]. f_equal. }
  destruct (loop_total srv enough_fuel init) as (o & Ho & Hs).
  - rewrite Hroom. unfold enough_fuel. lia.
  - exists o. split; [exact Ho|]. rewrite Hroom in Hs. exact Hs.
Qed.

Lemma reach_loop (srv : server) (n : nat) (st : state) :
  reach srv n st -> forall fuel, loop (n + fuel) srv init = loop fuel srv st.
Proof.
  induction 1 as [|n st st' Hr IH Hit]; intros fuel; [reflexivity|].
  replace (S n + fuel)%nat with (n + S fuel)%nat by lia.
  rewrite IH. simpl. rewrite Hit. reflexivity.
Qed.

(** The pass that returns from a reachable state gives the result of the
    call. *)
Lemma reach_return (srv : server) (n : nat) (st : state) (o : outcome) :
  reach srv n st -> iteration srv st = Return o ->
  get_issues_from_project srv = Some o.
Proof.
  intros Hr Hit.
  assert (Hn : loop (n + 1) srv init = Some o).
  { rewrite (reach_loop _ _ _ Hr). simpl. rewrite Hit. reflexivity. }
  destruct (get_issues_from_project_total srv) as (o' & Ho' & _).
  unfold get_issues_from_project in *.
  destruct (Nat.le_ge_cases (n + 1) enough_fuel) as [Hle|Hle].
  - apply (loop_more_fuel _ _ _ _ _ Hn Hle).
  - pose proof (loop_more_fuel _ _ _ _ _ Ho' Hle) as Hn'. congruence.
Qed.

Lemma iteration_return_cases (srv : server) (st : state) (o : outcome) :
  iteration srv st = Return o ->
  returned o = project_issues st \/ returned o = [] \/
  (len (project_issues st) < SAFETY_LIMIT /\
   exists status data issues items,
     srv (requests st) (last_seen_id st) = Http status (Some data) /\
     Py.get data "issues" (PList []) = Ok issues /\
     Py.iter issues = Ok items /\
     returned o = (project_issues st ++ items)%list).
Proof.
  unfold iteration. intros H.
  destruct (SAFETY_LIMIT <=? len (project_issues st)) eqn:Hcap;
    [injection H as <-; auto|].
  apply Z.leb_gt in Hcap.
  destruct (srv (requests st) (last_seen_id st)) as [|status body];
    [injection H as <-; auto|].
  destruct ((status =? 401) || (status =? 403)); [injection H as <-; auto|].
  destruct (raise_for_status status) as [[]|e]; cbn [bind] in H;
    [|injection H as <-; auto].
  destruct body as [data|]; cbn [bind json] in H; [|injection H as <-; auto].
  destruct (Py.get data "issues" (PList [])) as [issues|e] eqn:Hget;
    [|injection H as <-; auto].
  destruct (negb (Py.truthy issues)); [injection H as <-; auto|].
  unfold extend_and_advance in H.
  destruct (Py.iter issues) as [items|e] eqn:Hi; [|injection H as <-; auto].
  destruct (bind _ _); [discriminate|].
  injection H as <-. right; right. split; [exact Hcap|].
  exists status, data, issues, items. auto.
Qed.


Lemma loop_bound (srv : server) (P : Z) :
  0 <= P -> pages_bounded srv P ->
  forall fuel st o,
    len (project_issues st) <= SAFETY_LIMIT - 1 + P ->
    loop fuel srv st = Some o ->
    len (returned o) <= SAFETY_LIMIT - 1 + P.
Proof.
  intros HP Hpages. induction fuel as [|fuel IH]; intros st o Hst H; [discriminate|].
  simpl in H. destruct (iteration srv st) as [st'|o'] eqn:Hit.
  - apply (IH st' o); [|exact H].
    apply iteration_continue in Hit as (Hcap & status & data & issues & items & id
                                        & Hsrv & Hget & _ & Hi & ->).
    cbn [project_issues]. rewrite len_app.
    pose proof (Hpages _ _ _ _ _ _ Hsrv Hget Hi). lia.
  - injection H as ->.
    apply iteration_return_cases in Hit
      as [-> | [-> | (Hcap & status & data & issues & items & Hsrv & Hget & Hi & ->)]].
    + exact Hst.
    + unfold len, SAFETY_LIMIT; cbn [List.length]. lia.
    + rewrite len_app. pose proof (Hpages _ _ _ _ _ _ Hsrv Hget Hi). lia.
Qed.


Example short_pages_overshoot :
  option_map (fun o => (len (returned o), printed o, sent o))
             (get_issues_from_project short_pages)
  = Some (50094, [SafetyLimitReached], 506%nat).
Proof. vm_compute. reflexivity. Qed.

(* ================================================================== *)
(** ** The paginator: errors, cap, termination *)
(* ================================================================== *)

Lemma reach_after_first_page (srv : server) :
  srv O None = page_of [issue_with_id 7; issue_with_id 4] ->
  reach srv 1 after_first_page.
Proof.
  intros H. apply (reach_next srv 0 init); [constructor|].
  unfold iteration. change (requests init) with O.
  change (last_seen_id init) with (@None pyval). rewrite H. reflexivity.
Qed.

(** C2: when the response to a page request, the first or a later one,
    has status 401 or 403, the call returns the empty list: what the
    earlier pages of the call accumulated is not returned. *)
Theorem auth_failure_returns_empty
  (srv : server) (n : nat) (st : state) (status : Z) (body : option pyval) :
  reach srv n st ->
  len (project_issues st) < SAFETY_LIMIT ->
  srv (requests st) (last_seen_id st) = Http status body ->
  status = 401 \/ status = 403 ->
  get_issues_from_project srv = Some (mkOutcome [] [AccessDenied] (S (requests st))).
Proof.
  intros Hr Hcap Hsrv Hst. apply (reach_return srv n st); [exact Hr|].
  unfold iteration. apply Z.leb_gt in Hcap. rewrite Hcap, Hsrv.
  destruct Hst as [-> | ->]; reflexivity.
Qed.

Lemma auth_failure_returns_empty_witness :
  reach (page_then_status 403) 1 after_first_page /\
  project_issues after_first_page = [issue_with_id 7; issue_with_id 4] /\
  get_issues_from_project (page_then_status 403)
  = Some (mkOutcome [] [AccessDenied] 2).
Proof.
  split; [apply reach_after_first_page; reflexivity|].
  split; [reflexivity|].
  apply (auth_failure_returns_empty (page_then_status 403) 1 after_first_page 403 None).
  - apply reach_after_first_page; reflexivity.
  - reflexivity.
  - reflexivity.
  - right; reflexivity.
Defined.



(** A project whose first page is empty: nothing is returned and one
    request is sent. *)
Example empty_first_page :
  get_issues_from_project no_issues = Some (mkOutcome [] [] 1).
Proof. reflexivity. Qed.

(** A page whose last issue has no [id] is appended before the cursor is
    read: the error then leaves that page in the list returned. *)
Example page_without_id_is_kept :
  get_issues_from_project (fun _ _ => page_of [PDict [("key", PStr "ABC-1")]])
  = Some (mkOutcome [PDict [("key", PStr "ABC-1")]] [ErrorInProject] 1).
Proof. reflexivity. Qed.

(** C4, as stated, fails: against a service that sends 99 issues a page
    the call returns 50094 issues, more than the cap. *)
Lemma cap_can_be_exceeded :
  ~ (forall srv o, get_issues_from_project srv = Some o ->
                   len (returned o) <= SAFETY_LIMIT).
Proof.
  intros H. pose proof short_pages_overshoot as E.
  destruct (get_issues_from_project short_pages) as [o|] eqn:Ho; [|discriminate].
  specialize (H short_pages o Ho). simpl in E. injection E as E _ _.
  rewrite E in H. unfold SAFETY_LIMIT in H. lia.
Qed.

(** C4, amended: the cap is tested before each request, so the list
    returned has fewer issues than the cap plus the largest page (at most
    50,099 for pages of at most 100); and when the accumulated list has
    reached the cap, the call sends no further request, prints the
    warning and returns all of it. *)
Theorem safety_cap_bounds_result (srv : server) (P : Z) :
  0 <= P ->
  pages_bounded srv P ->
  exists o,
    get_issues_from_project srv = Some o /\
    len (returned o) <= SAFETY_LIMIT - 1 + P /\
    forall n st,
      reach srv n st -> SAFETY_LIMIT <= len (project_issues st) ->
      o = mkOutcome (project_issues st) [SafetyLimitReached] (requests st).
Proof.
  intros HP Hpages.
  destruct (get_issues_from_project_total srv) as (o & Ho & _).
  exists o. split; [exact Ho|]. split.
  - apply (loop_bound srv P HP Hpages enough_fuel init o); [|exact Ho].
    unfold len, init, SAFETY_LIMIT; cbn [project_issues List.length]. lia.
  - intros n st Hr Hcap.
    assert (Hit : iteration srv st
                  = Return (mkOutcome (project_issues st) [SafetyLimitReached] (requests st))).
    { unfold iteration. apply Z.leb_le in Hcap. rewrite Hcap. reflexivity. }
    pose proof (reach_return srv n st _ Hr Hit) as Ho'. congruence.
Qed.

Lemma countdown_length (n : nat) (from : Z) : List.length (countdown n from) = n.
Proof.
  revert from. induction n as [|n IH]; intros from; simpl; [reflexivity|].
  rewrite IH. reflexivity.
Qed.

Lemma page_of_items (l : list pyval) (status : Z) (data issues : pyval)
      (items : list pyval) :
  page_of l = Http status (Some data) ->
  Py.get data "issues" (PList []) = Ok issues ->
  Py.iter issues = Ok items ->
  items = l.
Proof.
  unfold page_of. intros H Hget Hi. injection H as _ <-.
  simpl in Hget. injection Hget as <-. simpl in Hi. injection Hi as <-. reflexivity.
Qed.

Lemma short_pages_bounded : pages_bounded short_pages 99.
Proof.
  intros n c status data issues items Hsrv Hget Hi.
  unfold short_pages in Hsrv. cbv zeta in Hsrv.
  rewrite (page_of_items _ _ _ _ _ Hsrv Hget Hi).
  unfold len. rewrite length_map, countdown_length. lia.
Qed.

Lemma safety_cap_bounds_result_witness :
  pages_bounded short_pages 99 /\
  exists o,
    get_issues_from_project short_pages = Some o /\
    len (returned o) <= SAFETY_LIMIT - 1 + 99 /\
    forall n st,
      reach short_pages n st -> SAFETY_LIMIT <= len (project_issues st) ->
      o = mkOutcome (project_issues st) [SafetyLimitReached] (requests st).
Proof.
  split; [exact short_pages_bounded|].
  apply (safety_cap_bounds_result short_pages 99); [lia | exact short_pages_bounded].
Defined.

(** C5: the loop ends after finitely many page requests, whatever the
    service answers: a pass that does not end the loop was below the cap
    and leaves strictly more issues accumulated, so the call returns
    after at most 50,000 requests, and more passes allowed change
    nothing. *)
Theorem pagination_terminates (srv : server) :
  (forall st st', iteration srv st = Continue st' ->
                  len (project_issues st) < SAFETY_LIMIT /\
                  len (project_issues st) < len (project_issues st')) /\
  exists o,
    get_issues_from_project srv = Some o /\
    Z.of_nat (sent o) <= SAFETY_LIMIT /\
    forall fuel, (enough_fuel <= fuel)%nat -> loop fuel srv init = Some o.
Proof.
  split.
  - intros st st' H. apply iteration_progress in H. tauto.
  - destruct (get_issues_from_project_total srv) as (o & Ho & Hs).
    exists o. split; [exact Ho|]. split.
    + unfold SAFETY_LIMIT in *. lia.
    + intros fuel Hle. apply (loop_more_fuel srv enough_fuel fuel init o Ho Hle).
Qed.

Lemma pagination_terminates_witness :
  exists o, get_issues_from_project short_pages = Some o /\
            Z.of_nat (sent o) <= SAFETY_LIMIT.
Proof.
  destruct (pagination_terminates short_pages) as (_ & o & Ho & Hs & _).
  exists o. split; [exact Ho | exact Hs].
Defined.

(* ================================================================== *)
(** ** The paginator against a service that honours the query *)
(* ================================================================== *)









Section HonestRun.

Variable issue_of : Z -> pyval.
Variable id_in_jql : pyval -> option Z.
Variable matching : list Z.
Variable page_size : nat -> nat.

Hypothesis ids_readable :
  forall z, exists v, Py.subscript (issue_of z) "id" = Ok v /\ id_in_jql v = Some z.
Hypothesis pages_nonempty : forall n, (1 <= page_size n)%nat.
Hypothesis ids_unique : NoDup matching.
Hypothesis under_cap : Z.of_nat (List.length matching) <= SAFETY_LIMIT.

Let srv : server := honest issue_of id_in_jql matching page_size.
Let ordered : list Z := ByIdDesc.sort matching.






End HonestRun.



Example honest_run :
  get_issues_from_project (honest issue_with_id int_id [3; 10; 7; 1; 5] (fun _ => 2%nat))
  = Some (mkOutcome (map issue_with_id [10; 7; 5; 3; 1]) [] 4).
Proof. reflexivity. Qed.

(* ================================================================== *)
(** ** The normalizer *)
(* ================================================================== *)

Ltac bind_step H :=
  match type of H with
  | bind ?m _ = Ok _ =>
      let E := fresh "E" in
      destruct m eqn:E; cbn [bind] in H; [|discriminate H]
  end.

(** What a row that was produced says about the issue it comes from. *)
Lemma normalize_inv (parse : string -> pyresult datetime) (issue : pyval) (r : row) :
  normalize parse issue = Ok r ->
  exists fields priority resolution status,
    Py.get issue "fields" empty_dict = Ok fields /\
    creation parse fields = Ok (Creation_Date r, Creation_Month r, Creation_Year r) /\
    Py.get fields "priority" PNone = Ok priority /\
    Py.get (Py.or priority empty_dict) "name" (PStr "Normal") = Ok (Priority r) /\
    Py.get fields "resolution" PNone = Ok resolution /\
    Py.get (Py.or resolution empty_dict) "name" (PStr "Unresolved") = Ok (Resolution r) /\
    Py.get fields "status" empty_dict = Ok status /\
    Py.get status "name" NA = Ok (Status r).
Proof.
  unfold normalize. intros H.
  repeat (bind_step H ||
          match type of H with
          | context [let (_, _) := ?x in _] => destruct x
          end).
  injection H as <-.
  match goal with
  | E : bind (Py.get _ "status" _) _ = Ok _ |- _ => bind_step E
  end.
  do 4 eexists. cbn [Creation_Date Creation_Month Creation_Year Priority Resolution Status].
  repeat split; eassumption.
Qed.

(** C6: the code does not do what the claim says.  An issue whose
    [fields.project] is null raises [AttributeError] in the normalisation
    step, and the exception leaves [generate_excel_report]: no row is
    produced and no report is written, whatever the other issues are. *)
Theorem null_project_aborts_report :
  normalize fromisoformat issue_null_project = Raise AttributeError /\
  forall to_excel,
    generate_excel_report fromisoformat to_excel [issue_2025; issue_null_project]
    = Raise AttributeError.
Proof. split; [reflexivity | intros to_excel; reflexivity]. Qed.



Example normalize_issue_2025 :
  exists r, normalize fromisoformat issue_2025 = Ok r /\
            Creation_Date r = PStr "2025-11-22" /\
            Creation_Month r = PInt 11 /\ Creation_Year r = PInt 2025.
Proof. eexists. split; [reflexivity|]. repeat split. Qed.

Example normalize_issue_corrupt_date :
  exists r, normalize fromisoformat issue_corrupt_date = Ok r /\
            Creation_Date r = NA /\ Creation_Month r = NA /\ Creation_Year r = NA.
Proof. eexists. split; [reflexivity|]. repeat split. Qed.

Lemma name_of_object (d : list (string * pyval)) (v default x : pyval) :
  Py.lookup "name" d = Some v ->
  Py.get (Py.or (PDict d) empty_dict) "name" default = Ok x -> x = v.
Proof.
  intros Hd. destruct d as [|b d']; [discriminate|].
  unfold Py.or. cbn [Py.truthy Py.get]. rewrite Hd. congruence.
Qed.

(** C10: the defaults of Priority, Status and Resolution apply when the
    key [name] is absent from the sub-object, not when it is there with
    null: an issue whose [priority] is an object with [name] null gets the
    Priority None, not "Normal", and likewise for Status ("N/A") and
    Resolution ("Unresolved"). *)
Theorem name_null_is_kept
  (parse : string -> pyresult datetime) (issue fields : pyval) (r : row) :
  normalize parse issue = Ok r ->
  Py.get issue "fields" empty_dict = Ok fields ->
  (forall d, Py.get fields "priority" PNone = Ok (PDict d) ->
             (Py.lookup "name" d = Some PNone -> Priority r = PNone) /\
             (d <> [] -> Py.lookup "name" d = None -> Priority r = PStr "Normal")) /\
  (forall d, Py.get fields "status" empty_dict = Ok (PDict d) ->
             (Py.lookup "name" d = Some PNone -> Status r = PNone) /\
             (Py.lookup "name" d = None -> Status r = PStr "N/A")) /\
  (forall d, Py.get fields "resolution" PNone = Ok (PDict d) ->
             (Py.lookup "name" d = Some PNone -> Resolution r = PNone) /\
             (d <> [] -> Py.lookup "name" d = None -> Resolution r = PStr "Unresolved")).
Proof.
  intros Hn Hf.
  apply normalize_inv in Hn as (fields' & priority & resolution & status
                                & Hf' & _ & Hp & Hpn & Hr & Hrn & Hs & Hsn).
  rewrite Hf in Hf'. injection Hf' as <-.
  split; [|split]; intros d H; split.
  - intros Hd. rewrite Hp in H. injection H as ->.
    apply (name_of_object _ _ _ _ Hd Hpn).
  - intros Hne Hd. rewrite Hp in H. injection H as ->.
    destruct d as [|b d']; [congruence|].
    unfold Py.or in Hpn. cbn [Py.truthy Py.get] in Hpn. rewrite Hd in Hpn. congruence.
  - intros Hd. rewrite Hs in H. injection H as ->.
    cbn [Py.get] in Hsn. rewrite Hd in Hsn. congruence.
  - intros Hd. rewrite Hs in H. injection H as ->.
    cbn [Py.get] in Hsn. rewrite Hd in Hsn. unfold NA in Hsn. congruence.
  - intros Hd. rewrite Hr in H. injection H as ->.
    apply (name_of_object _ _ _ _ Hd Hrn).
  - intros Hne Hd. rewrite Hr in H. injection H as ->.
    destruct d as [|b d']; [congruence|].
    unfold Py.or in Hrn. cbn [Py.truthy Py.get] in Hrn. rewrite Hd in Hrn. congruence.
Qed.

Lemma name_null_is_kept_witness :
  exists r,
    normalize fromisoformat issue_null_names = Ok r /\
    Priority r = PNone /\ Status r = PNone /\ Resolution r = PNone.
Proof.
  destruct (normalize fromisoformat issue_null_names) as [r|e] eqn:Hn;
    [|discriminate Hn].
  exists r. split; [reflexivity|].
  destruct (name_null_is_kept fromisoformat issue_null_names
              (PDict [("priority", PDict [("name", PNone)]);
                      ("status", PDict [("name", PNone)]);
                      ("resolution", PDict [("name", PNone)])])
              r Hn eq_refl) as (Hp & Hs & Hr).
  split; [apply (Hp [("name", PNone)]); reflexivity|].
  split; [apply (Hs [("name", PNone)]); reflexivity
         |apply (Hr [("name", PNone)]); reflexivity].
Defined.

Example normalize_issue_null_names :
  exists r, normalize fromisoformat issue_null_names = Ok r /\
            Priority r = PNone /\ Status r = PNone /\ Resolution r = PNone.
Proof. eexists. split; [reflexivity|]. repeat split. Qed.

(* ================================================================== *)
(** ** The catalog and the run *)
(* ================================================================== *)

(** C9: every failure of the fetch of the catalog (transport, error
    status, body that is not JSON or not a sequence of projects) makes
    [get_all_accessible_projects] return the empty list and print the
    error, and with an empty catalog the run ends in [NoData] with a
    warning: no page is requested and no report is produced. *)
Theorem empty_catalog_ends_run :
  (forall resp,
      catalog_failure resp ->
      get_all_accessible_projects resp
      = ([], [InfoQueryingCatalog; CriticalErrorListingProjects])) /\
  (forall parse to_excel resp srv out,
      get_all_accessible_projects resp = ([], out) ->
      main parse to_excel resp srv
      = Some (Ok (mkRun NoData (out ++ [WarningNoProjects]) 0 [] None))).
Proof.
  split.
  - intros resp Hf. unfold get_all_accessible_projects, list_projects.
    destruct Hf as [ | status body Hrange | status | status data e Hi
                     | status data ps e Hi Hk ].
    + reflexivity.
    + unfold raise_for_status.
      replace ((400 <=? status) && (status <? 600)) with true; [reflexivity|].
      symmetry. apply andb_true_iff. split; [apply Z.leb_le | apply Z.ltb_lt]; lia.
    + destruct (raise_for_status status) as [[]|e]; reflexivity.
    + destruct (raise_for_status status) as [[]|e']; [|reflexivity].
      cbn [bind json]. rewrite Hi. reflexivity.
    + destruct (raise_for_status status) as [[]|e']; [|reflexivity].
      cbn [bind json]. rewrite Hi. cbn [bind]. rewrite Hk. reflexivity.
  - intros parse to_excel resp srv out H. unfold main. rewrite H. reflexivity.
Qed.

Lemma empty_catalog_ends_run_witness :
  get_all_accessible_projects (Http 403 None)
  = ([], [InfoQueryingCatalog; CriticalErrorListingProjects]) /\
  forall parse to_excel srv,
    main parse to_excel (Http 403 None) srv
    = Some (Ok (mkRun NoData
                      [InfoQueryingCatalog; CriticalErrorListingProjects; WarningNoProjects]
                      0 [] None)).
Proof.
  destruct empty_catalog_ends_run as [A B].
  assert (H : get_all_accessible_projects (Http 403 None)
              = ([], [InfoQueryingCatalog; CriticalErrorListingProjects])).
  { apply A. apply catalog_status. lia. }
  split; [exact H|]. intros parse to_excel srv.
  apply (B parse to_excel (Http 403 None) srv _ H).
Defined.

(** A catalog whose keys are not text fails in the line that prints the
    examples, after the count was printed. *)
Example catalog_keys_not_text :
  get_all_accessible_projects (Http 200 (Some (PList [PDict [("key", PInt 3)]])))
  = ([], [InfoQueryingCatalog; SuccessFoundProjects 1; CriticalErrorListingProjects]).
Proof. reflexivity. Qed.

(* ================================================================== *)
(** ** The companion utility *)
(* ================================================================== *)

(** C8: the code does not do what the claim says.  For a file read by the
    CSV fallback under a name without [.xlsx], the name given to the
    writer is the input path itself: no [_updated] name is derived. *)
Theorem csv_path_is_not_renamed :
  Typify.output_filename "consolidated_report.csv" = "consolidated_report.csv" /\
  Typify.add_binary_column_from_list
    TypifyInputs.csv_only "consolidated_report.csv" "Reporter Name"
    (map Typify.CStr Typify.lst) "Traditional"
  = Typify.Saved "consolidated_report.csv"
      [("Key", [Typify.CStr "ABC-1"; Typify.CStr "ABC-2"]);
       ("Reporter Name", [Typify.CStr "juan.perna"; Typify.CStr "Juan Perna"]);
       ("Traditional", [Typify.CInt 1; Typify.CInt 0])]
      1.
Proof. split; reflexivity. Qed.

Example xlsx_path_is_renamed :
  Typify.output_filename "consolidated_report.xlsx" = "consolidated_report_updated.xlsx".
Proof. reflexivity. Qed.

(** The new column says, row by row, whether the value is in the list. *)
Lemma isin_spec (series lookup_list : list Typify.cell) (i : nat) (v : Typify.cell) :
  nth_error series i = Some v ->
  nth_error (Typify.isin series lookup_list) i
  = Some (if existsb (Typify.cell_eqb v) lookup_list
          then Typify.CInt 1 else Typify.CInt 0).
Proof.
  intros H. unfold Typify.isin. rewrite nth_error_map, H. reflexivity.
Qed.

(* ================================================================== *)
(** ** More on the paginator *)
(* ================================================================== *)

(** The ways a pass ends the loop: what it prints and what it returns. *)
Lemma iteration_return_kinds (srv : server) (st : state) (o : outcome) :
  iteration srv st = Return o ->
  (printed o = [SafetyLimitReached] /\ returned o = project_issues st) \/
  (printed o = [AccessDenied] /\ returned o = []) \/
  (printed o = [] /\ returned o = project_issues st) \/
  (printed o = [ErrorInProject] /\
   exists rest, returned o = (project_issues st ++ rest)%list).
Proof.
  unfold iteration. intros H.
  destruct (SAFETY_LIMIT <=? len (project_issues st));
    [injection H as <-; left; split; reflexivity|].
  assert (Herr : forall n,
             Return (mkOutcome (project_issues st) [ErrorInProject] n) = Return o ->
             printed o = [ErrorInProject] /\
             exists rest, returned o = (project_issues st ++ rest)%list).
  { intros n E. injection E as <-. split; [reflexivity|].
    exists []. symmetry. apply app_nil_r. }
  destruct (srv (requests st) (last_seen_id st)) as [|status body].
  { right; right; right. apply (Herr _ H). }
  destruct ((status =? 401) || (status =? 403));
    [injection H as <-; right; left; split; reflexivity|].
  destruct (bind _ _) as [issues|e]; [|right; right; right; apply (Herr _ H)].
  destruct (negb (Py.truthy issues));
    [injection H as <-; right; right; left; split; reflexivity|].
  unfold extend_and_advance in H.
  destruct (Py.iter issues) as [items|e]; [|right; right; right; apply (Herr _ H)].
  destruct (bind _ _); [discriminate|].
  injection H as <-. right; right; right. split; [reflexivity|].
  exists items. reflexivity.
Qed.

Lemma loop_keeps (srv : server) (fuel : nat) :
  forall st o,
    loop fuel srv st = Some o ->
    (printed o = [AccessDenied] /\ returned o = []) \/
    (printed o <> [AccessDenied] /\
     exists rest, returned o = (project_issues st ++ rest)%list).
Proof.
  induction fuel as [|fuel IH]; intros st o H; [discriminate|].
  simpl in H. destruct (iteration srv st) as [st'|o'] eqn:Hit.
  - apply IH in H as [H | (Hp & rest & Hr)]; [left; exact H|].
    right. split; [exact Hp|].
    apply iteration_continue in Hit as (_ & _ & _ & _ & items & id & _ & _ & _ & _ & ->).
    cbn [project_issues] in Hr. rewrite <- app_assoc in Hr. eauto.
  - injection H as ->.
    apply iteration_return_kinds in Hit
      as [(Hp & Hr) | [(Hp & Hr) | [(Hp & Hr) | (Hp & rest & Hr)]]].
    + right. split; [rewrite Hp; discriminate|]. exists []. rewrite Hr, app_nil_r. reflexivity.
    + left. auto.
    + right. split; [rewrite Hp; discriminate|]. exists []. rewrite Hr, app_nil_r. reflexivity.
    + right. split; [rewrite Hp; discriminate|]. eauto.
Qed.

(** The result of the call is the result of the loop run from any state
    it passes through. *)
Lemma reach_result (srv : server) (n : nat) (st : state) (o : outcome) :
  reach srv n st -> get_issues_from_project srv = Some o ->
  exists fuel, loop fuel srv st = Some o.
Proof.
  intros Hr Ho.
  destruct (loop_total srv (S (room st)) st) as (o' & Ho' & _); [lia|].
  exists (S (room st)). rewrite Ho'. f_equal.
  pose proof (reach_loop srv n st Hr (S (room st))) as E. rewrite Ho' in E.
  unfold get_issues_from_project in Ho.
  destruct (Nat.le_ge_cases (n + S (room st)) enough_fuel) as [Hle|Hle].
  - pose proof (loop_more_fuel _ _ _ _ _ E Hle). congruence.
  - pose proof (loop_more_fuel _ _ _ _ _ Ho Hle). congruence.
Qed.

(** X1: what the call has accumulated is never lost except on an access
    denial: the list returned starts with the issues accumulated at any
    point of the run, unless the call ends on a 401 or 403, in which case
    it is empty. *)
Theorem accumulated_kept_unless_denied
  (srv : server) (n : nat) (st : state) (o : outcome) :
  reach srv n st ->
  get_issues_from_project srv = Some o ->
  (printed o = [AccessDenied] /\ returned o = []) \/
  (printed o <> [AccessDenied] /\
   exists rest, returned o = (project_issues st ++ rest)%list).
Proof.
  intros Hr Ho. destruct (reach_result srv n st o Hr Ho) as (fuel & Hl).
  apply (loop_keeps srv fuel st o Hl).
Qed.

Lemma accumulated_kept_unless_denied_witness :
  (printed (mkOutcome [issue_with_id 7; issue_with_id 4] [ErrorInProject] 2)
   = [AccessDenied] /\
   returned (mkOutcome [issue_with_id 7; issue_with_id 4] [ErrorInProject] 2) = []) \/
  (printed (mkOutcome [issue_with_id 7; issue_with_id 4] [ErrorInProject] 2)
   <> [AccessDenied] /\
   exists rest,
     returned (mkOutcome [issue_with_id 7; issue_with_id 4] [ErrorInProject] 2)
     = (project_issues after_first_page ++ rest)%list).
Proof.
  apply (accumulated_kept_unless_denied page_then_drop 1 after_first_page).
  - apply reach_after_first_page; reflexivity.
  - reflexivity.
Defined.

(** X2: a page with no issues, or a body without the key [issues], ends
    the call normally from any point of the run: everything accumulated
    is returned and no line is printed. *)
Theorem empty_page_ends_normally
  (srv : server) (n : nat) (st : state) (status : Z) (d : list (string * pyval)) :
  reach srv n st ->
  len (project_issues st) < SAFETY_LIMIT ->
  srv (requests st) (last_seen_id st) = Http status (Some (PDict d)) ->
  status < 400 \/ 600 <= status ->
  match Py.lookup "issues" d with
  | Some issues => Py.truthy issues = false
  | None => True
  end ->
  get_issues_from_project srv
  = Some (mkOutcome (project_issues st) [] (S (requests st))).
Proof.
  intros Hr Hcap Hsrv Hst Hd. apply (reach_return srv n st); [exact Hr|].
  unfold iteration. apply Z.leb_gt in Hcap. rewrite Hcap, Hsrv.
  replace ((status =? 401) || (status =? 403)) with false
    by (symmetry; apply orb_false_iff; split; apply Z.eqb_neq; lia).
  unfold raise_for_status.
  replace ((400 <=? status) && (status <? 600)) with false
    by (symmetry; apply andb_false_iff;
        destruct Hst; [left; apply Z.leb_gt | right; apply Z.ltb_ge]; lia).
  cbn [bind json Py.get].
  destruct (Py.lookup "issues" d) as [issues|]; [rewrite Hd|]; reflexivity.
Qed.

Lemma empty_page_ends_normally_witness :
  get_issues_from_project
    (fun n _ => match n with
                | O => page_of [issue_with_id 7; issue_with_id 4]
                | _ => Http 200 (Some (PDict []))
                end)
  = Some (mkOutcome [issue_with_id 7; issue_with_id 4] [] 2).
Proof.
  apply (empty_page_ends_normally _ 1 after_first_page 200 []).
  - apply reach_after_first_page; reflexivity.
  - reflexivity.
  - reflexivity.
  - left; reflexivity.
  - exact I.
Defined.





(* ================================================================== *)
(** ** The service that honours the query, for a project of any size *)
(* ================================================================== *)


Section HonestAnySize.

Variable issue_of : Z -> pyval.
Variable id_in_jql : pyval -> option Z.
Variable matching : list Z.
Variable page_size : nat -> nat.

Hypothesis ids_readable :
  forall z, exists v, Py.subscript (issue_of z) "id" = Ok v /\ id_in_jql v = Some z.
Hypothesis pages_nonempty : forall n, (1 <= page_size n)%nat.
Hypothesis ids_unique : NoDup matching.

Let srv : server := honest issue_of id_in_jql matching page_size.
Let ordered : list Z := ByIdDesc.sort matching.



End HonestAnySize.



(* ================================================================== *)
(** ** Comprehensions and joins *)
(* ================================================================== *)

Lemma mapM_Forall2 {A B : Type} (f : A -> pyresult B) (l : list A) (bs : list B) :
  mapM f l = Ok bs <-> Forall2 (fun a b => f a = Ok b) l bs.
Proof.
  revert bs. induction l as [|a l IH]; intros bs; simpl.
  - split; [intros H; injection H as <-; constructor | intros H; inversion H; reflexivity].
  - split.
    + intros H. destruct (f a) as [b|e] eqn:Hb; cbn [bind] in H; [|discriminate].
      destruct (mapM f l) as [bs'|e] eqn:Hbs; cbn [bind] in H; [|discriminate].
      injection H as <-. constructor; [exact Hb | apply IH; reflexivity].
    + intros H. inversion H as [|a' b l' bs' Hb Hrest]; subst.
      rewrite Hb. cbn [bind]. apply IH in Hrest. rewrite Hrest. reflexivity.
Qed.

Lemma mapM_Raise {A B : Type} (f : A -> pyresult B) (l : list A) (a : A) (e : exn) :
  In a l -> f a = Raise e -> exists e', mapM f l = Raise e'.
Proof.
  induction l as [|x l IH]; simpl; intros Hin Ha; [contradiction|].
  destruct (f x) as [b|e'] eqn:Hx; cbn [bind]; [|eauto].
  destruct Hin as [-> | Hin]; [congruence|].
  destruct (IH Hin Ha) as (e' & ->). cbn [bind]. eauto.
Qed.

Lemma join_strings (sep : string) (l : list pyval) :
  forallb is_str l = true <-> exists t, Py.join sep l = Ok t.
Proof.
  induction l as [|x l IH]; simpl.
  - split; eauto.
  - destruct x as [| b | z | s | l' | d]; simpl;
      try (split; [discriminate | intros (t & Ht); discriminate]).
    destruct l as [|y l]; [split; eauto|].
    rewrite IH. split.
    + intros (t & Ht). rewrite Ht. cbn [bind]. eauto.
    + intros (t & Ht). destruct (Py.join sep (y :: l)) as [t'|e]; [eauto|discriminate].
Qed.

(* ================================================================== *)
(** ** More on the catalog *)
(* ================================================================== *)

(** X5: a catalog answered with a success status and a JSON list of
    objects that have a [key] gives the keys in the order of the
    response; only the first five keys have to be text. *)
Theorem catalog_keys_in_order (status : Z) (ps keys : list pyval) :
  status < 400 \/ 600 <= status ->
  Forall2 (fun p k => Py.subscript p "key" = Ok k) ps keys ->
  forallb is_str (firstn 5 keys) = true ->
  get_all_accessible_projects (Http status (Some (PList ps)))
  = (keys, [InfoQueryingCatalog; SuccessFoundProjects (List.length keys)]).
Proof.
  intros Hst Hkeys Htext.
  unfold get_all_accessible_projects, list_projects, raise_for_status.
  replace ((400 <=? status) && (status <? 600)) with false
    by (symmetry; apply andb_false_iff;
        destruct Hst; [left; apply Z.leb_gt | right; apply Z.ltb_ge]; lia).
  cbn [bind json Py.iter]. apply mapM_Forall2 in Hkeys. rewrite Hkeys.
  apply (join_strings ", ") in Htext as (t & Ht). rewrite Ht. reflexivity.
Qed.

Lemma catalog_keys_in_order_witness :
  get_all_accessible_projects
    (Http 200 (Some (PList [PDict [("key", PStr "UPMU"); ("name", PStr "Payments")];
                            PDict [("key", PStr "SDI")]])))
  = ([PStr "UPMU"; PStr "SDI"], [InfoQueryingCatalog; SuccessFoundProjects 2]).
Proof.
  apply (catalog_keys_in_order 200
           [PDict [("key", PStr "UPMU"); ("name", PStr "Payments")];
            PDict [("key", PStr "SDI")]]
           [PStr "UPMU"; PStr "SDI"]).
  - left; reflexivity.
  - repeat constructor.
  - reflexivity.
Defined.

(** X6: project keys are returned only from a response that did not fail:
    a status outside 400..599, a body that can be iterated, every element
    with a [key], and text in the first five keys. *)
Theorem catalog_keys_only_from_success (resp : response) (keys : list pyval) (out : list event) :
  get_all_accessible_projects resp = (keys, out) ->
  keys <> [] ->
  exists status data ps,
    resp = Http status (Some data) /\
    (status < 400 \/ 600 <= status) /\
    Py.iter data = Ok ps /\
    Forall2 (fun p k => Py.subscript p "key" = Ok k) ps keys /\
    forallb is_str (firstn 5 keys) = true /\
    out = [InfoQueryingCatalog; SuccessFoundProjects (List.length keys)].
Proof.
  unfold get_all_accessible_projects, list_projects. intros H Hne.
  destruct resp as [|status body]; [injection H as <- _; congruence|].
  unfold raise_for_status in H.
  destruct ((400 <=? status) && (status <? 600)) eqn:Hst;
    [injection H as <- _; congruence|].
  cbn [bind] in H. destruct body as [data|]; cbn [bind json] in H;
    [|injection H as <- _; congruence].
  destruct (Py.iter data) as [ps|e] eqn:Hi; cbn [bind] in H;
    [|injection H as <- _; congruence].
  destruct (mapM _ ps) as [ks|e] eqn:Hk; [|injection H as <- _; congruence].
  destruct (Py.join ", " (firstn 5 ks)) as [t|e] eqn:Hj; cbn [bind] in H;
    [|injection H as <- _; congruence].
  injection H as <- <-.
  exists status, data, ps. split; [reflexivity|]. split.
  { apply andb_false_iff in Hst as [Hst|Hst];
      [left; apply Z.leb_gt in Hst | right; apply Z.ltb_ge in Hst]; lia. }
  split; [exact Hi|]. split; [apply mapM_Forall2, Hk|].
  split; [apply (join_strings ", "); eauto | reflexivity].
Qed.

Lemma catalog_keys_only_from_success_witness :
  exists status data ps,
    Http 200 (Some (PList [PDict [("key", PStr "UPMU")]])) = Http status (Some data) /\
    (status < 400 \/ 600 <= status) /\
    Py.iter data = Ok ps /\
    Forall2 (fun p k => Py.subscript p "key" = Ok k) ps [PStr "UPMU"] /\
    forallb is_str (firstn 5 [PStr "UPMU"]) = true /\
    [InfoQueryingCatalog; SuccessFoundProjects 1]
    = [InfoQueryingCatalog; SuccessFoundProjects (List.length [PStr "UPMU"])].
Proof.
  apply (catalog_keys_only_from_success
           (Http 200 (Some (PList [PDict [("key", PStr "UPMU")]])))).
  - reflexivity.
  - discriminate.
Defined.

(* ================================================================== *)
(** ** More on the report and the run *)
(* ================================================================== *)



(** X8: one issue that cannot be normalised is enough for the whole
    report to be lost: the exception leaves [generate_excel_report], and
    nothing is handed to the sink. *)
Theorem one_bad_issue_aborts_report
  (parse : string -> pyresult datetime) (to_excel : list row -> pyresult unit)
  (issues : list pyval) (bad : pyval) (e : exn) :
  In bad issues ->
  normalize parse bad = Raise e ->
  exists e', generate_excel_report parse to_excel issues = Raise e'.
Proof.
  intros Hin Hbad. unfold generate_excel_report.
  destruct issues as [|i issues]; [contradiction|].
  destruct (mapM_Raise (normalize parse) (i :: issues) bad e Hin Hbad) as (e' & ->).
  exists e'. reflexivity.
Qed.

Lemma one_bad_issue_aborts_report_witness :
  exists e',
    generate_excel_report fromisoformat (fun _ => Ok tt)
                          [issue_2025; issue_null_project; issue_null_names]
    = Raise e'.
Proof.
  apply (one_bad_issue_aborts_report fromisoformat (fun _ => Ok tt)
           [issue_2025; issue_null_project; issue_null_names]
           issue_null_project AttributeError).
  - right; left; reflexivity.
  - reflexivity.
Defined.

Lemma sweep_flat_map
  (srv : pyval -> server) (projects_list master_list : list pyval) :
  exists out n,
    sweep srv projects_list master_list
    = Some ((master_list ++ flat_map (issues_of srv) projects_list)%list, out, n) /\
    Z.of_nat n <= SAFETY_LIMIT * Z.of_nat (List.length projects_list).
Proof.
  revert master_list.
  induction projects_list as [|proj_key rest IH]; intros master_list.
  - exists [], 0%nat. cbn [sweep flat_map]. rewrite app_nil_r.
    split; [reflexivity | simpl; lia].
  - cbn [sweep flat_map]. unfold issues_of at 1.
    destruct (get_issues_from_project_total (srv proj_key)) as (o & Ho & Hs).
    rewrite Ho.
    assert (E : forall line,
               (let '(m, l) :=
                  match returned o with
                  | [] => (master_list, EmptyOrAccessDenied)
                  | _ :: _ => ((master_list ++ returned o)%list,
                               RecordsRetrieved (List.length (returned o)))
                  end in line m l)
               = line (master_list ++ returned o)%list
                      (match returned o with
                       | [] => EmptyOrAccessDenied
                       | _ :: _ => RecordsRetrieved (List.length (returned o))
                       end) :> option (list pyval * list event * nat)).
    { intros line. destruct (returned o); [rewrite app_nil_r|]; reflexivity. }
    rewrite E. clear E.
    destruct (IH (master_list ++ returned o)%list) as (out & n & -> & Hn).
    rewrite <- app_assoc. eexists _, _. split; [reflexivity|].
    cbn [List.length]. unfold SAFETY_LIMIT in *. lia.
Qed.

(** X9: the sweep always completes and aggregates, in the order of the
    catalog, what each project's call returned; a project that returns
    nothing (empty or denied) leaves the aggregate as it was. *)
Theorem sweep_aggregates_in_catalog_order
  (srv : pyval -> server) (projects_list master_list : list pyval) :
  exists out n,
    sweep srv projects_list master_list
    = Some ((master_list ++ flat_map (issues_of srv) projects_list)%list, out, n) /\
    Z.of_nat n <= SAFETY_LIMIT * Z.of_nat (List.length projects_list).
Proof. apply sweep_flat_map. Qed.

(** X10: the run always ends, in one of three ways decided by the
    aggregate of the issues of the catalog's projects: nothing aggregated,
    no report ([NoData]); every issue normalised, one row per issue handed
    to the sink ([ReportEmitted]); otherwise the exception of the first
    issue that cannot be normalised ends the run. *)
Theorem main_outcome
  (parse : string -> pyresult datetime) (to_excel : list row -> pyresult unit)
  (catalog : response) (srv : pyval -> server) :
  let aggregate :=
    flat_map (issues_of srv) (fst (get_all_accessible_projects catalog)) in
  match aggregate with
  | [] => exists ls n, main parse to_excel catalog srv
                       = Some (Ok (mkRun NoData ls n [] None))
  | _ :: _ =>
      match mapM (normalize parse) aggregate with
      | Ok rows =>
          List.length rows = List.length aggregate /\
          exists ls n rl,
            main parse to_excel catalog srv
            = Some (Ok (mkRun ReportEmitted ls n rl (Some rows)))
      | Raise e => main parse to_excel catalog srv = Some (Raise e)
      end
  end.
Proof.
  unfold main. destruct (get_all_accessible_projects catalog) as [keys out].
  cbn [fst]. destruct keys as [|k keys]; [cbn [flat_map]; eauto|].
  destruct (sweep_flat_map srv (k :: keys) []) as (out' & n & -> & _).
  cbn [app]. destruct (flat_map (issues_of srv) (k :: keys)) as [|i agg]; [eauto|].
  unfold generate_excel_report.
  destruct (mapM (normalize parse) (i :: agg)) as [rows|e] eqn:Hrows; cbn [bind];
    [|reflexivity].
  split.
  { apply mapM_Forall2 in Hrows. symmetry. apply (Forall2_length Hrows). }
  destruct (to_excel rows) as [u|[]]; eauto.
Qed.

(* ================================================================== *)
(** ** More on the normalizer *)
(* ================================================================== *)

Ltac bind_all :=
  repeat match goal with
         | E : bind _ _ = Ok _ |- _ => bind_step E
         | E : Ok _ = Ok _ |- _ => injection E as <-
         end.

(** Every column of a row that was produced, in terms of the issue. *)
Lemma normalize_row (parse : string -> pyresult datetime) (issue : pyval) (r : row) :
  normalize parse issue = Ok r ->
  exists key fields project_info issuetype_info reporter assignee time_estimate,
    Py.get issue "key" NA = Ok key /\
    Py.get issue "fields" empty_dict = Ok fields /\
    Py.get fields "project" empty_dict = Ok project_info /\
    Py.get fields "issuetype" empty_dict = Ok issuetype_info /\
    Py.get fields "reporter" PNone = Ok reporter /\
    Py.get fields "assignee" PNone = Ok assignee /\
    Py.get fields "timeoriginalestimate" PNone = Ok time_estimate /\
    Key r = key /\
    Link r = [Lit JIRA_BASE_URL; Lit "/browse/"; Fmt key] /\
    Py.get project_info "key" NA = Ok (Project_Key r) /\
    Py.get fields "summary" (PStr "No Summary") = Ok (Summary r) /\
    (exists name id,
        Py.get issuetype_info "name" PNone = Ok name /\
        Py.get issuetype_info "id" PNone = Ok id /\
        Issue_Type r = Py.or (Py.or name id) (PStr "N/A (Corrupt)")) /\
    (exists name id,
        Py.get (Py.or reporter empty_dict) "displayName" PNone = Ok name /\
        Py.get (Py.or reporter empty_dict) "accountId" PNone = Ok id /\
        Reporter_Name r = Py.or (Py.or name id) (PStr "Unknown") /\
        Reporter_AccountID r = Py.or id NA) /\
    (exists name id,
        Py.get (Py.or assignee empty_dict) "displayName" PNone = Ok name /\
        Py.get (Py.or assignee empty_dict) "accountId" PNone = Ok id /\
        Assignee_Name r = Py.or (Py.or name id) (PStr "Unassigned") /\
        Assignee_AccountID r = Py.or id NA) /\
    Original_Estimate r = match time_estimate with PNone => PInt 0 | v => v end /\
    (exists u s,
        Py.get fields "updated" NA = Ok u /\ Py.split_head u "T" = Ok s /\
        Updated r = PStr s) /\
    joined_names fields "components" = Ok (Components r) /\
    joined_names fields "fixVersions" = Ok (Fix_Versions r) /\
    (exists v items s,
        Py.get fields "labels" (PList []) = Ok v /\ Py.iter v = Ok items /\
        Py.join ", " items = Ok s /\ Labels r = PStr s) /\
    (exists v items outward inward s,
        Py.get fields "issuelinks" (PList []) = Ok v /\ Py.iter v = Ok items /\
        linked_keys "outwardIssue" "key" items = Ok outward /\
        linked_keys "inwardIssue" "key" items = Ok inward /\
        Py.join ", " (outward ++ inward) = Ok s /\ Linked_Issues r = PStr s).
Proof.
  unfold normalize. intros H.
  repeat (bind_step H ||
          match type of H with
          | context [let (_, _) := ?x in _] => destruct x
          end).
  injection H as <-. bind_all.
  cbn [Key Link Project_Key Summary Issue_Type Reporter_Name Reporter_AccountID
       Assignee_Name Assignee_AccountID Original_Estimate Updated Components
       Fix_Versions Labels Linked_Issues].
  match goal with
  | A : Py.iter ?v = Ok _, B : Py.iter ?v = Ok _ |- _ =>
      rewrite A in B; injection B as <-
  end.
  do 7 eexists.
  repeat (split; [first [eassumption | reflexivity]|]).
  repeat (split || eexists); first [eassumption | reflexivity].
Qed.

Lemma get_dict (d : list (string * pyval)) (k : string) (default : pyval) :
  Py.get (PDict d) k default = Ok (value_or k d default).
Proof. reflexivity. Qed.

Lemma get_ok (v x default : pyval) (k : string) :
  Py.get v k default = Ok x -> exists d, v = PDict d /\ x = value_or k d default.
Proof.
  destruct v; try discriminate. intros H. rewrite get_dict in H.
  injection H as <-. eauto.
Qed.

Lemma or_chain (a b c : pyval) : Py.or (Py.or a b) c = first_truthy [a; b] c.
Proof.
  unfold Py.or. simpl. destruct (Py.truthy a) eqn:Ha; [rewrite Ha|]; reflexivity.
Qed.

(** The names and ids of a person field that is absent, null or any other
    falsy value are the ones of an empty object. *)
Lemma person_of (f : list (string * pyval)) (k what : string) (x : pyval) :
  Py.get (Py.or (value_or k f PNone) empty_dict) what PNone = Ok x ->
  match Py.lookup k f with
  | None => x = PNone
  | Some v =>
      if Py.truthy v then exists d, v = PDict d /\ x = value_or what d PNone
      else x = PNone
  end.
Proof.
  unfold value_or, Py.or. destruct (Py.lookup k f) as [v|].
  - destruct (Py.truthy v); [|intros H; injection H as <-; reflexivity].
    intros H. apply get_ok in H. exact H.
  - intros H. injection H as <-. reflexivity.
Qed.

(** X11: Reporter and Assignee.  The name is the first truthy value of
    [displayName] and [accountId] of the person, else "Unknown" for the
    reporter and "Unassigned" for the assignee; the account id is
    [accountId] when truthy, else "N/A".  A person that is absent or null
    counts as an object without fields. *)
Theorem people_fallback_chain
  (parse : string -> pyresult datetime) (issue : pyval)
  (f : list (string * pyval)) (r : row) :
  normalize parse issue = Ok r ->
  Py.get issue "fields" empty_dict = Ok (PDict f) ->
  (exists d,
      match Py.lookup "reporter" f with
      | None => d = []
      | Some v => if Py.truthy v then v = PDict d else d = []
      end /\
      Reporter_Name r
      = first_truthy [value_or "displayName" d PNone; value_or "accountId" d PNone]
                     (PStr "Unknown") /\
      Reporter_AccountID r = first_truthy [value_or "accountId" d PNone] (PStr "N/A")) /\
  (exists d,
      match Py.lookup "assignee" f with
      | None => d = []
      | Some v => if Py.truthy v then v = PDict d else d = []
      end /\
      Assignee_Name r
      = first_truthy [value_or "displayName" d PNone; value_or "accountId" d PNone]
                     (PStr "Unassigned") /\
      Assignee_AccountID r = first_truthy [value_or "accountId" d PNone] (PStr "N/A")).
Proof.
  intros Hn Hf.
  apply normalize_row in Hn
    as (key & fields & project_info & issuetype_info & reporter & assignee & time_estimate
        & _ & Hf' & _ & _ & Hrep & Hass & _ & _ & _ & _ & _ & _
        & (rn & rid & Hrn & Hrid & Hr1 & Hr2) & (an & aid & Han & Haid & Ha1 & Ha2) & _).
  rewrite Hf in Hf'. injection Hf' as <-.
  rewrite get_dict in Hrep, Hass. injection Hrep as <-. injection Hass as <-.
  apply person_of in Hrn, Hrid, Han, Haid.
  rewrite Hr1, Hr2, Ha1, Ha2, !or_chain. unfold Py.or, NA.
  split.
  - destruct (Py.lookup "reporter" f) as [v|]; [destruct (Py.truthy v)|].
    + destruct Hrn as (d & -> & ->). destruct Hrid as (d' & E & ->).
      injection E as <-. exists d. auto.
    + subst rn rid. exists []. auto.
    + subst rn rid. exists []. auto.
  - destruct (Py.lookup "assignee" f) as [v|]; [destruct (Py.truthy v)|].
    + destruct Han as (d & -> & ->). destruct Haid as (d' & E & ->).
      injection E as <-. exists d. auto.
    + subst an aid. exists []. auto.
    + subst an aid. exists []. auto.
Qed.

Lemma people_fallback_chain_witness :
  exists r,
    normalize fromisoformat issue_full = Ok r /\
    Reporter_Name r = PStr "5b10a2844c20165700ede21g" /\
    Reporter_AccountID r = PStr "5b10a2844c20165700ede21g" /\
    Assignee_Name r = PStr "Unassigned" /\
    Assignee_AccountID r = PStr "N/A".
Proof.
  destruct (normalize fromisoformat issue_full) as [r|e] eqn:Hn; [|discriminate Hn].
  exists r. split; [reflexivity|].
  destruct (people_fallback_chain fromisoformat issue_full fields_full r Hn eq_refl)
    as ((d & Hd & Hrn & Hri) & (d' & Hd' & Han & Hai)).
  unfold fields_full in Hd, Hd'. simpl in Hd, Hd'. injection Hd as <-. subst d'.
  rewrite Hrn, Hri, Han, Hai. repeat split.
Defined.

(** X12: Issue Type is the first truthy value of [name] and [id] of
    [fields.issuetype], else "N/A (Corrupt)"; a row exists only when the
    issue type is absent or an object. *)
Theorem issue_type_fallback_chain
  (parse : string -> pyresult datetime) (issue : pyval)
  (f : list (string * pyval)) (r : row) :
  normalize parse issue = Ok r ->
  Py.get issue "fields" empty_dict = Ok (PDict f) ->
  exists d,
    (Py.lookup "issuetype" f = None /\ d = [] \/
     Py.lookup "issuetype" f = Some (PDict d)) /\
    Issue_Type r
    = first_truthy [value_or "name" d PNone; value_or "id" d PNone]
                   (PStr "N/A (Corrupt)").
Proof.
  intros Hn Hf.
  apply normalize_row in Hn
    as (key & fields & project_info & issuetype_info & reporter & assignee & time_estimate
        & _ & Hf' & _ & Hty & _ & _ & _ & _ & _ & _ & _
        & (name & id & Hname & Hid & Hr) & _).
  rewrite Hf in Hf'. injection Hf' as <-.
  rewrite get_dict in Hty. injection Hty as <-.
  apply get_ok in Hname as (d & Hd & ->). apply get_ok in Hid as (d' & Hd' & ->).
  rewrite Hd in Hd'. injection Hd' as <-.
  exists d. rewrite Hr, or_chain. split; [|reflexivity].
  unfold value_or, empty_dict in Hd.
  destruct (Py.lookup "issuetype" f) as [v|];
    [right; congruence | left; split; congruence].
Qed.

Lemma issue_type_fallback_chain_witness :
  exists r, normalize fromisoformat issue_full = Ok r /\ Issue_Type r = PStr "10004".
Proof.
  destruct (normalize fromisoformat issue_full) as [r|e] eqn:Hn; [|discriminate Hn].
  exists r. split; [reflexivity|].
  destruct (issue_type_fallback_chain fromisoformat issue_full fields_full r Hn eq_refl)
    as (d & [[Hd _] | Hd] & Hr); [discriminate Hd|].
  injection Hd as <-. exact Hr.
Defined.

(** X13: Original Estimate is 0 when [timeoriginalestimate] is absent or
    null, and the value itself otherwise, whatever it is. *)
Theorem original_estimate_default
  (parse : string -> pyresult datetime) (issue : pyval)
  (f : list (string * pyval)) (r : row) :
  normalize parse issue = Ok r ->
  Py.get issue "fields" empty_dict = Ok (PDict f) ->
  Original_Estimate r
  = match Py.lookup "timeoriginalestimate" f with
    | None | Some PNone => PInt 0
    | Some v => v
    end.
Proof.
  intros Hn Hf.
  apply normalize_row in Hn
    as (key & fields & project_info & issuetype_info & reporter & assignee & time_estimate
        & _ & Hf' & _ & _ & _ & _ & Ht & _ & _ & _ & _ & _ & _ & _ & Hr & _).
  rewrite Hf in Hf'. injection Hf' as <-.
  rewrite get_dict in Ht. injection Ht as <-. rewrite Hr. unfold value_or.
  destruct (Py.lookup "timeoriginalestimate" f) as [[]|]; reflexivity.
Qed.

Lemma original_estimate_default_witness :
  exists r, normalize fromisoformat issue_full = Ok r /\ Original_Estimate r = PInt 3600.
Proof.
  destruct (normalize fromisoformat issue_full) as [r|e] eqn:Hn; [|discriminate Hn].
  exists r. split; [reflexivity|].
  apply (original_estimate_default fromisoformat issue_full fields_full r Hn eq_refl).
Defined.

Lemma before_first_split (sep : ascii) (s : string) :
  (exists rest, s = (Py.before_first sep s ++ rest)%string /\
                (rest = "" \/ exists rest', rest = String sep rest')) /\
  ~ In sep (list_ascii_of_string (Py.before_first sep s)).
Proof.
  induction s as [|c s ((rest & Hs & Hrest) & Hno)]; simpl.
  - split; [exists ""; auto | tauto].
  - destruct (Ascii.eqb c sep) eqn:Hc.
    + apply Ascii.eqb_eq in Hc. subst c. simpl.
      split; [exists (String sep s); eauto | tauto].
    + apply Ascii.eqb_neq in Hc. simpl. split.
      * exists rest. split; [congruence | exact Hrest].
      * intros [E | Hin]; [congruence | contradiction].
Qed.

(** X14: Updated is "N/A" when [fields.updated] is absent; otherwise
    [updated] is text (no row is produced for anything else) and Updated
    is what precedes its first [T]: a prefix of it, without any [T],
    followed by nothing or by a [T]. *)
Theorem updated_is_date_part
  (parse : string -> pyresult datetime) (issue : pyval)
  (f : list (string * pyval)) (r : row) :
  normalize parse issue = Ok r ->
  Py.get issue "fields" empty_dict = Ok (PDict f) ->
  match Py.lookup "updated" f with
  | None => Updated r = PStr "N/A"
  | Some u =>
      exists s day rest,
        u = PStr s /\ Updated r = PStr day /\
        s = (day ++ rest)%string /\
        (rest = "" \/ exists rest', rest = String "T" rest') /\
        ~ In "T"%char (list_ascii_of_string day)
  end.
Proof.
  intros Hn Hf.
  apply normalize_row in Hn
    as (key & fields & project_info & issuetype_info & reporter & assignee & time_estimate
        & _ & Hf' & _ & _ & _ & _ & _ & _ & _ & _ & _ & _ & _ & _ & _
        & (u & s & Hu & Hs & Hr) & _).
  rewrite Hf in Hf'. injection Hf' as <-.
  rewrite get_dict in Hu. injection Hu as <-. unfold value_or in Hs.
  destruct (Py.lookup "updated" f) as [u|].
  - destruct u as [| b | z | t | l | d]; try discriminate.
    cbn [Py.split_head] in Hs. injection Hs as <-.
    destruct (before_first_split "T" t) as ((rest & Ht & Hrest) & Hno).
    exists t, (Py.before_first "T" t), rest. auto.
  - injection Hs as <-. exact Hr.
Qed.

Lemma updated_is_date_part_witness :
  exists r,
    normalize fromisoformat issue_full = Ok r /\
    exists s day rest,
      PStr "2025-11-23T08:00:01.000-0300" = PStr s /\ Updated r = PStr day /\
      s = (day ++ rest)%string /\
      (rest = "" \/ exists rest', rest = String "T" rest') /\
      ~ In "T"%char (list_ascii_of_string day).
Proof.
  destruct (normalize fromisoformat issue_full) as [r|e] eqn:Hn; [|discriminate Hn].
  exists r. split; [reflexivity|].
  exact (updated_is_date_part fromisoformat issue_full fields_full r Hn eq_refl).
Defined.

(** X15: the Key column is the issue's [key], "N/A" when absent, and the
    Link is the base URL, [/browse/] and that same key; only an issue
    that is an object gets a row. *)
Theorem key_and_link
  (parse : string -> pyresult datetime) (issue : pyval) (r : row) :
  normalize parse issue = Ok r ->
  exists d,
    issue = PDict d /\
    Key r = value_or "key" d (PStr "N/A") /\
    Link r = [Lit "https://bancoicbc.atlassian.net"; Lit "/browse/"; Fmt (Key r)].
Proof.
  intros Hn.
  apply normalize_row in Hn
    as (key & fields & project_info & issuetype_info & reporter & assignee & time_estimate
        & Hk & _ & _ & _ & _ & _ & _ & Hkey & Hlink & _).
  apply get_ok in Hk as (d & -> & ->).
  exists d. rewrite Hlink, Hkey. auto.
Qed.

Lemma key_and_link_witness :
  exists r,
    normalize fromisoformat issue_full = Ok r /\
    Key r = PStr "ABC-7" /\
    Link r = [Lit "https://bancoicbc.atlassian.net"; Lit "/browse/"; Fmt (PStr "ABC-7")].
Proof.
  destruct (normalize fromisoformat issue_full) as [r|e] eqn:Hn; [|discriminate Hn].
  exists r. split; [reflexivity|].
  destruct (key_and_link fromisoformat issue_full r Hn) as (d & Hd & Hk & Hl).
  unfold issue_full in Hd. injection Hd as <-.
  rewrite Hl, Hk. split; reflexivity.
Defined.

(** X16: the three creation columns are set together.  They are all
    "N/A" when [fields.created] is absent, falsy, or text that the parser
    rejects; otherwise [created] is text and they are the date, the month
    and the year of one parsed date, the text being cut at its first
    dot. *)
Theorem creation_columns_set_together
  (parse : string -> pyresult datetime) (issue : pyval)
  (f : list (string * pyval)) (r : row) :
  normalize parse issue = Ok r ->
  Py.get issue "fields" empty_dict = Ok (PDict f) ->
  let all_na :=
    Creation_Date r = PStr "N/A" /\ Creation_Month r = PStr "N/A" /\
    Creation_Year r = PStr "N/A" in
  match Py.lookup "created" f with
  | None => all_na
  | Some v =>
      if Py.truthy v then
        exists s, v = PStr s /\
          match parse (Py.before_first "." s) with
          | Ok dt =>
              Creation_Date r = PStr (strftime_Ymd dt) /\
              Creation_Month r = PInt (month dt) /\
              Creation_Year r = PInt (year dt)
          | Raise _ => all_na
          end
      else all_na
  end.
Proof.
  intros Hn Hf all_na. subst all_na.
  apply normalize_inv in Hn as (fields & _ & _ & _ & Hf' & Hc & _).
  rewrite Hf in Hf'. injection Hf' as <-.
  unfold creation in Hc. rewrite get_dict in Hc. cbn [bind] in Hc.
  unfold value_or in Hc.
  destruct (Py.lookup "created" f) as [v|].
  - destruct (Py.truthy v).
    + destruct v as [| b | z | s | l | d]; try discriminate Hc.
      exists s. split; [reflexivity|]. cbn [Py.split_head bind] in Hc.
      destruct (parse (Py.before_first "." s)) as [dt|e]; cbn [bind] in Hc.
      * injection Hc as <- <- <-. auto.
      * destruct e; try discriminate Hc. injection Hc as <- <- <-. auto.
    + injection Hc as <- <- <-. auto.
  - cbn [Py.truthy String.eqb negb] in Hc. injection Hc as <- <- <-. auto.
Qed.

Lemma creation_columns_set_together_witness :
  exists r,
    normalize fromisoformat issue_full = Ok r /\
    Creation_Date r = PStr "2025-11-22" /\
    Creation_Month r = PInt 11 /\ Creation_Year r = PInt 2025.
Proof.
  destruct (normalize fromisoformat issue_full) as [r|e] eqn:Hn; [|discriminate Hn].
  exists r. split; [reflexivity|].
  destruct (creation_columns_set_together fromisoformat issue_full fields_full r Hn eq_refl)
    as (s & Hs & H).
  injection Hs as <-. exact H.
Defined.

(** X17: an issue without [fields], or with empty [fields], gets the row
    of the defaults: "N/A" for the project key, the dates, the status and
    the account ids, "N/A (Corrupt)", "No Summary", "Unknown",
    "Unassigned", "Normal", "Unresolved", empty text for the lists and 0
    for the estimate. *)
Theorem no_fields_gives_defaults
  (parse : string -> pyresult datetime) (d : list (string * pyval)) :
  value_or "fields" d empty_dict = PDict [] ->
  normalize parse (PDict d) = Ok (default_row (value_or "key" d (PStr "N/A"))).
Proof.
  intros Hf. unfold normalize. rewrite !get_dict. cbn [bind]. rewrite Hf. reflexivity.
Qed.

Lemma no_fields_gives_defaults_witness :
  normalize fromisoformat (PDict [("id", PStr "10001")])
  = Ok (default_row (PStr "N/A")).
Proof.
  apply (no_fields_gives_defaults fromisoformat [("id", PStr "10001")]). reflexivity.
Defined.

(* ================================================================== *)
(** ** Which issues get a row *)
(* ================================================================== *)

Lemma absent_or_default (P : pyval -> bool) (k : string)
      (f : list (string * pyval)) (default : pyval) :
  P default = true -> absent_or P k f = P (value_or k f default).
Proof.
  intros H. unfold absent_or, value_or.
  destruct (Py.lookup k f); [reflexivity | symmetry; exact H].
Qed.

Lemma is_dict_iff (v : pyval) : is_dict v = true <-> exists d, v = PDict d.
Proof.
  destruct v; simpl; split; try discriminate; eauto; intros (d & H); discriminate.
Qed.

Lemma is_str_iff (v : pyval) : is_str v = true <-> exists s, v = PStr s.
Proof.
  destruct v; simpl; split; try discriminate; eauto; intros (d & H); discriminate.
Qed.

Lemma falsy_or_dict_iff (v : pyval) :
  falsy_or is_dict v = true <-> exists d, Py.or v empty_dict = PDict d.
Proof.
  unfold falsy_or, Py.or. destruct (Py.truthy v); simpl.
  - apply is_dict_iff.
  - split; [exists []; reflexivity | reflexivity].
Qed.

Lemma names_iff (items : list pyval) :
  forallb named items = true <->
  exists names, mapM (fun c => Py.subscript c "name") items = Ok names /\
                forallb is_str names = true.
Proof.
  induction items as [|c items IH]; simpl.
  - split; [exists []; auto | reflexivity].
  - unfold named at 1. rewrite andb_true_iff, IH.
    destruct (Py.subscript c "name") as [x|e]; cbn [bind].
    + split.
      * intros (Hx & names & -> & Hn). cbn [bind].
        exists (x :: names). split; [reflexivity|]. simpl. rewrite Hn.
        destruct x; try discriminate. reflexivity.
      * intros (names' & H & Hn).
        destruct (mapM _ items) as [names|e]; cbn [bind] in H; [|discriminate].
        injection H as <-. simpl in Hn. apply andb_true_iff in Hn as [Hx Hn].
        split; [destruct x; try discriminate; reflexivity | eauto].
    + split; [intros (H & _); discriminate | intros (n & H & _); discriminate].
Qed.

Lemma joined_names_iff (f : list (string * pyval)) (k : string) :
  absent_or (items_all named) k f = true <->
  exists s, joined_names (PDict f) k = Ok s.
Proof.
  rewrite (absent_or_default _ _ _ (PList [])) by reflexivity.
  unfold joined_names, items_all. rewrite get_dict. cbn [bind].
  destruct (Py.iter (value_or k f (PList []))) as [items|e]; cbn [bind];
    [|split; [discriminate | intros (s & H); discriminate]].
  rewrite names_iff. split.
  - intros (names & -> & Hn). cbn [bind].
    apply (join_strings ", ") in Hn as (t & ->). cbn [bind]. eauto.
  - intros (s & H). destruct (mapM _ items) as [names|e]; cbn [bind] in H; [|discriminate].
    exists names. split; [reflexivity|]. apply (join_strings ", ").
    destruct (Py.join ", " names) as [t|e]; [eauto | discriminate].
Qed.

Lemma links_iff (k : string) (items : list pyval) :
  forallb (link_ok k) items = true <->
  exists ks, linked_keys k "key" items = Ok ks /\ forallb is_str ks = true.
Proof.
  induction items as [|x items IH]; simpl.
  - split; [exists []; auto | reflexivity].
  - unfold link_ok at 1. rewrite andb_true_iff, IH.
    destruct (Py.contains k x) as [[|]|e]; cbn [bind].
    + destruct (Py.subscript x k) as [inner|e]; cbn [bind];
        [|split; [intros (H & _); discriminate | intros (n & H & _); discriminate]].
      destruct (Py.subscript inner "key") as [y|e]; cbn [bind];
        [|split; [intros (H & _); discriminate | intros (n & H & _); discriminate]].
      split.
      * intros (Hy & ks & -> & Hks). cbn [bind].
        exists (y :: ks). split; [reflexivity|]. simpl. rewrite Hks.
        destruct y; try discriminate. reflexivity.
      * intros (ks' & H & Hks).
        destruct (linked_keys k "key" items) as [ks|e]; cbn [bind] in H; [|discriminate].
        injection H as <-. simpl in Hks. apply andb_true_iff in Hks as [Hy Hks].
        split; [destruct y; try discriminate; reflexivity | eauto].
    + split; [intros (_ & H); exact H | intros H; split; [reflexivity | exact H]].
    + split; [intros (H & _); discriminate | intros (n & H & _); discriminate].
Qed.

Lemma creation_iff (parse : string -> pyresult datetime) (f : list (string * pyval)) :
  (forall s e, parse s = Raise e -> e = ValueError) ->
  absent_or (falsy_or is_str) "created" f = true <->
  exists t, creation parse (PDict f) = Ok t.
Proof.
  intros Hparse.
  rewrite (absent_or_default _ _ _ (PStr "")) by reflexivity.
  unfold creation, falsy_or. rewrite get_dict. cbn [bind].
  destruct (Py.truthy (value_or "created" f (PStr ""))); cbn [negb orb];
    [|split; eauto].
  destruct (value_or "created" f (PStr "")) as [| b | z | s | l | d];
    cbn [is_str Py.split_head bind];
    try (split; [discriminate | intros (t & H); discriminate]).
  split; [intros _ | reflexivity].
  destruct (parse (Py.before_first "." s)) as [dt|e] eqn:Hp; cbn [bind]; [eauto|].
  rewrite (Hparse _ _ Hp). eauto.
Qed.

Ltac defaulted H v := rewrite (absent_or_default _ _ _ v) in H by reflexivity.

Lemma normalizable_gets_row
  (parse : string -> pyresult datetime) (issue : pyval) :
  (forall s e, parse s = Raise e -> e = ValueError) ->
  normalizable issue = true -> exists r, normalize parse issue = Ok r.
Proof.
  intros Hparse. unfold normalizable.
  destruct (Py.get issue "fields" empty_dict) as [fields|e] eqn:Hf; [|discriminate].
  destruct fields as [| | | | |f]; try discriminate.
  apply get_ok in Hf as (d & -> & Hf). symmetry in Hf.
  unfold fields_ok. rewrite !andb_true_iff.
  intros (((((((((((((Hproject & Hissuetype) & Hstatus) & Hrep) & Hass) & Hprio)
                 & Hres) & Hcomp) & Hfix) & Hlab) & Hout) & Hin) & Hcre) & Hupd).
  defaulted Hproject empty_dict. defaulted Hissuetype empty_dict.
  defaulted Hstatus empty_dict.
  apply is_dict_iff in Hproject as (dp & Hproject), Hissuetype as (dt & Hissuetype),
      Hstatus as (ds & Hstatus).
  defaulted Hrep PNone. defaulted Hass PNone. defaulted Hprio PNone.
  defaulted Hres PNone.
  apply falsy_or_dict_iff in Hrep as (drep & Hrep), Hass as (dass & Hass),
      Hprio as (dprio & Hprio), Hres as (dres & Hres).
  apply joined_names_iff in Hcomp as (scomp & Hcomp), Hfix as (sfix & Hfix).
  defaulted Hlab (PList []). defaulted Hout (PList []). defaulted Hin (PList []).
  unfold items_all in Hlab, Hout, Hin.
  destruct (Py.iter (value_or "labels" f (PList []))) as [labels|e] eqn:Hil;
    [|discriminate].
  apply (join_strings ", ") in Hlab as (slab & Hlab).
  destruct (Py.iter (value_or "issuelinks" f (PList []))) as [links|e] eqn:Hik;
    [|discriminate].
  apply links_iff in Hout as (ko & Hout & Hko), Hin as (ki & Hin & Hki).
  assert (Hjoin : exists s, Py.join ", " (ko ++ ki) = Ok s).
  { apply join_strings. rewrite forallb_app, Hko, Hki. reflexivity. }
  destruct Hjoin as (slink & Hjoin).
  apply (creation_iff parse f Hparse) in Hcre as ([[cd cm] cy] & Hcre).
  defaulted Hupd NA.
  apply is_str_iff in Hupd as (su & Hupd).
  unfold normalize. rewrite !get_dict. cbn [bind]. rewrite Hf.
  rewrite !get_dict. cbn [bind]. cbv zeta.
  rewrite Hcomp, Hfix, Hil, Hik. cbn [bind]. rewrite Hlab, Hout, Hin. cbn [bind].
  rewrite Hjoin, Hrep, Hass, Hissuetype, Hcre, Hproject, Hupd, Hstatus, Hprio, Hres.
  rewrite !get_dict. cbn [bind Py.split_head]. eexists. reflexivity.
Qed.

Lemma row_only_if_normalizable
  (parse : string -> pyresult datetime) (issue : pyval) (r : row) :
  (forall s e, parse s = Raise e -> e = ValueError) ->
  normalize parse issue = Ok r -> normalizable issue = true.
Proof.
  intros Hparse Hn.
  pose proof (normalize_inv parse issue r Hn)
    as (fields0 & priority & resolution & status & Hf0 & Hcre & Hprio & Hprio'
        & Hres & Hres' & Hstatus & Hstatus').
  apply normalize_row in Hn
    as (key & fields & project_info & issuetype_info & reporter & assignee & time_estimate
        & _ & Hf & Hproject & Hissuetype & Hrep & Hass & _ & _ & _ & Hproject' & _
        & (tn & ti & Htn & _) & (rn & ri & Hrn & _) & (an & ai & Han & _) & _
        & (u & su & Hu & Hsu & _) & Hcomp & Hfix
        & (lv & labels & slab & Hlv & Hil & Hlab & _)
        & (kv & links & ko & ki & slink & Hkv & Hik & Hout & Hin & Hjoin & _)).
  rewrite Hf in Hf0. injection Hf0 as <-.
  unfold normalizable. rewrite Hf.
  apply get_ok in Hproject as (f & -> & ->).
  rewrite get_dict in *.
  injection Hissuetype as <-. injection Hrep as <-. injection Hass as <-.
  injection Hprio as <-. injection Hres as <-. injection Hstatus as <-.
  injection Hu as <-. injection Hlv as <-. injection Hkv as <-.
  assert (Hkeys : forallb is_str ko = true /\ forallb is_str ki = true).
  { apply andb_true_iff. rewrite <- forallb_app. apply (join_strings ", "). eauto. }
  destruct Hkeys as [Hko Hki].
  unfold fields_ok. repeat (apply andb_true_iff; split).
  - rewrite (absent_or_default _ _ _ empty_dict) by reflexivity.
    apply is_dict_iff. apply get_ok in Hproject' as (d & E & _). eauto.
  - rewrite (absent_or_default _ _ _ empty_dict) by reflexivity.
    apply is_dict_iff. apply get_ok in Htn as (d & E & _). eauto.
  - rewrite (absent_or_default _ _ _ empty_dict) by reflexivity.
    apply is_dict_iff. apply get_ok in Hstatus' as (d & E & _). eauto.
  - rewrite (absent_or_default _ _ _ PNone) by reflexivity.
    apply falsy_or_dict_iff. apply get_ok in Hrn as (d & E & _). eauto.
  - rewrite (absent_or_default _ _ _ PNone) by reflexivity.
    apply falsy_or_dict_iff. apply get_ok in Han as (d & E & _). eauto.
  - rewrite (absent_or_default _ _ _ PNone) by reflexivity.
    apply falsy_or_dict_iff. apply get_ok in Hprio' as (d & E & _). eauto.
  - rewrite (absent_or_default _ _ _ PNone) by reflexivity.
    apply falsy_or_dict_iff. apply get_ok in Hres' as (d & E & _). eauto.
  - apply joined_names_iff. eauto.
  - apply joined_names_iff. eauto.
  - rewrite (absent_or_default _ _ _ (PList [])) by reflexivity.
    unfold items_all. rewrite Hil. apply (join_strings ", "). eauto.
  - rewrite (absent_or_default _ _ _ (PList [])) by reflexivity.
    unfold items_all. rewrite Hik. apply links_iff. eauto.
  - rewrite (absent_or_default _ _ _ (PList [])) by reflexivity.
    unfold items_all. rewrite Hik. apply links_iff. eauto.
  - apply (creation_iff parse f Hparse). eauto.
  - rewrite (absent_or_default _ _ _ NA) by reflexivity.
    apply is_str_iff. destruct (value_or "updated" f NA); try discriminate Hsu. eauto.
Qed.

(* ================================================================== *)
(** ** The date parser raises nothing but [ValueError] *)
(* ================================================================== *)

Lemma number_raises (n : nat) (acc : Z) (s : list ascii) (e : exn) :
  Iso.number n acc s = Raise e -> e = ValueError.
Proof.
  revert acc s. induction n as [|n IH]; intros acc s; simpl; [discriminate|].
  destruct s as [|c s]; [congruence|].
  destruct (Iso.digit c); [apply IH | congruence].
Qed.

Lemma expect_raises (c : ascii) (s : list ascii) (e : exn) :
  Iso.expect c s = Raise e -> e = ValueError.
Proof.
  unfold Iso.expect. destruct s as [|c' s]; [congruence|].
  destruct (Ascii.eqb c c'); [discriminate | congruence].
Qed.

Lemma require_raises (b : bool) (e : exn) :
  Iso.require b = Raise e -> e = ValueError.
Proof. destruct b; simpl; [discriminate | congruence]. Qed.

Ltac raises H :=
  match type of H with
  | Iso.number _ _ _ = Raise _ => exact (number_raises _ _ _ _ H)
  | Iso.expect _ _ = Raise _ => exact (expect_raises _ _ _ H)
  | Iso.require _ = Raise _ => exact (require_raises _ _ H)
  | bind ?m _ = Raise _ =>
      let E := fresh "E" in
      destruct m as [?|?] eqn:E; cbn [bind] in H;
      [ raises H | injection H as <-; raises E ]
  | (let (_, _) := ?x in _) = Raise _ => destruct x; raises H
  | match ?l with [] => _ | _ :: _ => _ end = Raise _ => destruct l; raises H
  | match ?c with Ascii _ _ _ _ _ _ _ _ => _ end = Raise _ => destruct c; raises H
  | (if ?b then _ else _) = Raise _ => destruct b; raises H
  | match ?m with Ok _ => _ | Raise _ => _ end = Raise _ =>
      let E := fresh "E" in destruct m as [?|?] eqn:E; raises H
  | Ok _ = Raise _ => discriminate H
  | Raise _ = Raise _ => injection H as <-; reflexivity
  end.

Lemma date_raises (s : list ascii) (e : exn) : Iso.date s = Raise e -> e = ValueError.
Proof. unfold Iso.date. intros H. raises H. Qed.

Lemma fraction_raises (s : list ascii) (e : exn) :
  Iso.fraction s = Raise e -> e = ValueError.
Proof. unfold Iso.fraction. intros H. raises H. Qed.

Lemma clock_raises (s : list ascii) (e : exn) : Iso.clock s = Raise e -> e = ValueError.
Proof. unfold Iso.clock, Iso.fraction. intros H. raises H. Qed.

Lemma offset_raises (s : list ascii) (e : exn) : Iso.offset s = Raise e -> e = ValueError.
Proof. unfold Iso.offset. intros H. raises H. Qed.

Lemma fromisoformat_raises (date_string : string) (e : exn) :
  fromisoformat date_string = Raise e -> e = ValueError.
Proof.
  unfold fromisoformat. intros H.
  destruct (Iso.date (list_ascii_of_string date_string)) as [[[[y m] d] s]|e'] eqn:Hd;
    cbn [bind] in H; [|injection H as <-; apply date_raises in Hd; exact Hd].
  destruct s as [|c s]; [discriminate|].
  destruct (Iso.clock s) as [[[[[h mi] sec] us] s']|e'] eqn:Hc;
    cbn [bind] in H; [|injection H as <-; apply clock_raises in Hc; exact Hc].
  destruct (Iso.offset s') as [tz|e'] eqn:Ho;
    cbn [bind] in H; [|injection H as <-; apply offset_raises in Ho; exact Ho].
  raises H.
Qed.

(** X18: the issues that get a row are exactly the objects whose
    [fields], when there, is an object in which [project], [issuetype] and
    [status] are absent or objects; [reporter], [assignee], [priority]
    and [resolution] are absent, falsy or objects; [components] and
    [fixVersions] are absent or sequences of objects with a text [name];
    [labels] is absent or a sequence of text; every link of [issuelinks]
    that has an outward or inward issue has one with a text [key];
    [created] is absent, falsy or text; and [updated] is absent or text.
    Any other issue raises. *)
Theorem row_iff_normalizable
  (parse : string -> pyresult datetime) (issue : pyval) :
  (forall s e, parse s = Raise e -> e = ValueError) ->
  normalizable issue = true <-> exists r, normalize parse issue = Ok r.
Proof.
  intros Hparse. split.
  - apply (normalizable_gets_row parse issue Hparse).
  - intros (r & Hr). apply (row_only_if_normalizable parse issue r Hparse Hr).
Qed.

Lemma row_iff_normalizable_witness :
  (exists r, normalize fromisoformat issue_complete = Ok r) /\
  normalizable issue_null_project = false /\
  normalize fromisoformat issue_null_project = Raise AttributeError.
Proof.
  split; [|split; reflexivity].
  apply (row_iff_normalizable fromisoformat issue_complete fromisoformat_raises).
  reflexivity.
Defined.

Example normalize_issue_complete :
  exists r,
    normalize fromisoformat issue_complete = Ok r /\
    Project_Key r = PStr "ABC" /\ Issue_Type r = PStr "Bug" /\
    Summary r = PStr "Login fails" /\ Status r = PStr "Open" /\
    Priority r = PStr "High" /\ Resolution r = PStr "Unresolved" /\
    Components r = PStr "web, api" /\ Labels r = PStr "regression" /\
    Fix_Versions r = PStr "" /\ Linked_Issues r = PStr "ABC-2, ABC-3" /\
    Updated r = PStr "2025-11-23" /\ Original_Estimate r = PInt 0.
Proof. eexists. split; [reflexivity|]. repeat split. Qed.

(* ================================================================== *)
(** ** More on the companion utility *)
(* ================================================================== *)

(** X19: assigning a column and reading it back gives the values
    assigned; every other column is untouched; and the list of columns
    is the same when the name was there, or gets the name at its end. *)
Theorem assign_then_column
  (name : string) (values : list Typify.cell) (df : Typify.dataframe) :
  Typify.column name (Typify.assign name values df) = Some values /\
  (forall other, other <> name ->
     Typify.column other (Typify.assign name values df) = Typify.column other df) /\
  Typify.columns (Typify.assign name values df)
  = if existsb (String.eqb name) (Typify.columns df)
    then Typify.columns df
    else (Typify.columns df ++ [name])%list.
Proof.
  induction df as [|[n vs] df (IH1 & IH2 & IH3)]; simpl.
  - rewrite String.eqb_refl. repeat split.
    intros other Ho. apply String.eqb_neq in Ho. rewrite Ho. reflexivity.
  - destruct (String.eqb name n) eqn:Hn; simpl.
    + apply String.eqb_eq in Hn. subst n. rewrite String.eqb_refl. repeat split.
      intros other Ho. apply String.eqb_neq in Ho. rewrite Ho. reflexivity.
    + rewrite Hn. split; [exact IH1|]. split.
      * intros other Ho. destruct (String.eqb other n); [reflexivity | apply IH2, Ho].
      * unfold Typify.columns in *. rewrite IH3.
        destruct (existsb (String.eqb name) (map fst df)); reflexivity.
Qed.

Lemma total_isin (series lookup_list : list Typify.cell) :
  Typify.total (Typify.isin series lookup_list)
  = Z.of_nat (List.length
                (filter (fun v => existsb (Typify.cell_eqb v) lookup_list) series)).
Proof.
  induction series as [|v series IH]; [reflexivity|].
  unfold Typify.isin in *. cbn [map filter Typify.total fold_right] in *.
  destruct (existsb (Typify.cell_eqb v) lookup_list); cbn [List.length];
    unfold Typify.total in IH; rewrite IH; lia.
Qed.

(** X20: the new column has one flag per row, each 0 or 1, and the
    number of matches printed is the number of rows whose value is in the
    list. *)
Theorem isin_flags (series lookup_list : list Typify.cell) :
  List.length (Typify.isin series lookup_list) = List.length series /\
  Forall (fun v => v = Typify.CInt 0 \/ v = Typify.CInt 1)
         (Typify.isin series lookup_list) /\
  Typify.total (Typify.isin series lookup_list)
  = Z.of_nat (List.length
                (filter (fun v => existsb (Typify.cell_eqb v) lookup_list) series)).
Proof.
  split; [apply length_map|]. split; [|apply total_isin].
  unfold Typify.isin. apply Forall_map, Forall_forall. intros v _.
  destruct (existsb (Typify.cell_eqb v) lookup_list); auto.
Qed.

Lemma text_in_list (s : string) (names : list string) :
  existsb (Typify.cell_eqb (Typify.CStr s)) (map Typify.CStr names) = true <-> In s names.
Proof.
  rewrite existsb_exists. split.
  - intros (c & Hin & Hc). apply in_map_iff in Hin as (t & <- & Hin).
    simpl in Hc. apply String.eqb_eq in Hc. subst t. exact Hin.
  - intros Hin. exists (Typify.CStr s). split; [apply in_map, Hin|].
    simpl. apply String.eqb_refl.
Qed.

(** X21: against a list of names the match is exact: the flag of a row
    that holds text is 1 when that very text is in the list and 0
    otherwise; a row that holds a number or nothing gets 0. *)
Theorem isin_exact_match
  (series : list Typify.cell) (names : list string) (i : nat) (v : Typify.cell) :
  nth_error series i = Some v ->
  exists flag,
    nth_error (Typify.isin series (map Typify.CStr names)) i = Some (Typify.CInt flag) /\
    match v with
    | Typify.CStr s => (flag = 1 <-> In s names) /\ (flag = 0 <-> ~ In s names)
    | _ => flag = 0
    end.
Proof.
  intros Hv. unfold Typify.isin. rewrite nth_error_map, Hv. cbn [option_map].
  destruct v as [s | z |].
  - pose proof (text_in_list s names) as Hin.
    destruct (existsb _ _); eexists; (split; [reflexivity|]).
    + assert (Hs : In s names) by (apply Hin; reflexivity).
      split; split; intros H; try reflexivity; try assumption;
        try discriminate H; contradiction.
    + assert (Hs : ~ In s names) by (intros Hs; apply Hin in Hs; discriminate).
      split; split; intros H; try reflexivity; try assumption;
        try discriminate H; contradiction.
  - replace (existsb _ _) with false; [eauto|].
    symmetry. apply not_true_is_false. rewrite existsb_exists.
    intros (c & Hin & Hc). apply in_map_iff in Hin as (t & <- & _). discriminate.
  - replace (existsb _ _) with false; [eauto|].
    symmetry. apply not_true_is_false. rewrite existsb_exists.
    intros (c & Hin & Hc). apply in_map_iff in Hin as (t & <- & _). discriminate.
Qed.

Lemma isin_exact_match_witness :
  exists flag,
    nth_error (Typify.isin [Typify.CStr "juan.perna"; Typify.CStr "Juan Perna"]
                           (map Typify.CStr Typify.lst)) 1
    = Some (Typify.CInt flag) /\
    (flag = 1 <-> In "Juan Perna" Typify.lst) /\
    (flag = 0 <-> ~ In "Juan Perna" Typify.lst).
Proof.
  apply (isin_exact_match [Typify.CStr "juan.perna"; Typify.CStr "Juan Perna"]
                          Typify.lst 1 (Typify.CStr "Juan Perna")).
  reflexivity.
Defined.

(** X22: the utility asks for a write exactly when the file exists, one
    of the readers reads it (the spreadsheet reader first, the CSV reader
    only when that one fails) and the table has the column to check; the
    table written is the table read with the flags assigned to the new
    column, under the name computed from the path. *)
Theorem saved_iff
  (fs : Typify.files) (file_path column_to_check new_column_name : string)
  (lookup_list : list Typify.cell)
  (output : string) (out_df : Typify.dataframe) (matches : Z) :
  Typify.add_binary_column_from_list fs file_path column_to_check lookup_list new_column_name
  = Typify.Saved output out_df matches
  <->
  Typify.exists_ fs file_path = true /\
  exists df series,
    (Typify.read_excel fs file_path = Ok df \/
     (exists e, Typify.read_excel fs file_path = Raise e) /\
     Typify.read_csv fs file_path = Ok df) /\
    Typify.column column_to_check df = Some series /\
    output = Typify.output_filename file_path /\
    out_df = Typify.assign new_column_name (Typify.isin series lookup_list) df /\
    matches = Typify.total (Typify.isin series lookup_list).
Proof.
  unfold Typify.add_binary_column_from_list. split.
  - intros H. destruct (Typify.exists_ fs file_path); [|discriminate].
    split; [reflexivity|]. cbn [negb] in H.
    destruct (Typify.read_excel fs file_path) as [df|e] eqn:Hx.
    + destruct (Typify.column column_to_check df) as [series|] eqn:Hc; [|discriminate].
      injection H as <- <- <-. exists df, series. auto 6.
    + destruct (Typify.read_csv fs file_path) as [df|e'] eqn:Hv; [|discriminate].
      destruct (Typify.column column_to_check df) as [series|] eqn:Hc; [|discriminate].
      injection H as <- <- <-. exists df, series. split; [right; eauto|]. auto.
  - intros (He & df & series & Hread & Hc & -> & -> & ->). rewrite He. cbn [negb].
    destruct Hread as [-> | ((e & ->) & ->)]; rewrite Hc; reflexivity.
Qed.

Lemma replace_absent (old new s : string) :
  Py.substring_of old s = false -> Typify.replace old new s = s.
Proof.
  unfold Typify.replace. induction s as [|c s IH]; [reflexivity|].
  cbn [Py.substring_of Typify.replace_from]. intros H.
  apply orb_false_iff in H as [Hp Hs]. rewrite Hp, (IH Hs). reflexivity.
Qed.

(** X23: a path that does not contain [.xlsx] is left as it is: the
    table is then written under the input path itself. *)
Theorem output_filename_without_xlsx (file_path : string) :
  Py.substring_of ".xlsx" file_path = false ->
  Typify.output_filename file_path = file_path.
Proof. apply replace_absent. Qed.

Lemma output_filename_without_xlsx_witness :
  Typify.output_filename "exports/report.XLSX" = "exports/report.XLSX".
Proof. apply (output_filename_without_xlsx "exports/report.XLSX"). reflexivity. Defined.

(** An occurrence of [.xlsx] at the head of [s ++ ".xlsx"] is the suffix
    itself or lies within [s]. *)
Lemma prefix_xlsx_app (s : string) :
  String.prefix ".xlsx" (s ++ ".xlsx") = true ->
  s = "" \/ String.prefix ".xlsx" s = true.
Proof.
  intros H. destruct s as [|c1 s]; [left; reflexivity | right].
  cbn [String.prefix String.append] in *.
  destruct (ascii_dec "." c1); [|discriminate H].
  destruct s as [|c2 s]; cbn [String.prefix String.append] in *; [discriminate H|].
  destruct (ascii_dec "x" c2); [|discriminate H].
  destruct s as [|c3 s]; cbn [String.prefix String.append] in *; [discriminate H|].
  destruct (ascii_dec "l" c3); [|discriminate H].
  destruct s as [|c4 s]; cbn [String.prefix String.append] in *; [discriminate H|].
  destruct (ascii_dec "s" c4); [|discriminate H].
  destruct s as [|c5 s]; cbn [String.prefix String.append] in *; [discriminate H|].
  destruct (ascii_dec "x" c5); [|discriminate H].
  destruct s; reflexivity.
Qed.

(** X24: for a path that ends in [.xlsx] and has no other [.xlsx] in it,
    the output name is the path with [_updated] put before the
    extension. *)
Theorem output_filename_of_xlsx (stem : string) :
  Py.substring_of ".xlsx" stem = false ->
  Typify.output_filename (stem ++ ".xlsx") = (stem ++ "_updated.xlsx")%string.
Proof.
  unfold Typify.output_filename, Typify.replace.
  induction stem as [|c stem IH]; [reflexivity|].
  intros H. cbn [Py.substring_of] in H. apply orb_false_iff in H as [Hp Hs].
  change ((String c stem ++ ".xlsx")%string) with (String c (stem ++ ".xlsx")).
  cbn [Typify.replace_from].
  destruct (String.prefix ".xlsx" (String c (stem ++ ".xlsx"))) eqn:Hx.
  - apply (prefix_xlsx_app (String c stem)) in Hx as [Hx | Hx]; [discriminate|].
    rewrite Hx in Hp. discriminate.
  - rewrite (IH Hs). reflexivity.
Qed.

Lemma output_filename_of_xlsx_witness :
  Typify.output_filename "exports/v1.2/consolidated_report.xlsx"
  = "exports/v1.2/consolidated_report_updated.xlsx".
Proof.
  apply (output_filename_of_xlsx "exports/v1.2/consolidated_report"). reflexivity.
Defined.

(* ================================================================== *)
(** ** The joined columns *)
(* ================================================================== *)

Lemma join_concat (sep : string) (names : list string) :
  Py.join sep (map PStr names) = Ok (String.concat sep names).
Proof.
  induction names as [|n names IH]; [reflexivity|].
  destruct names as [|n' names]; [reflexivity|].
  change (map PStr (n :: n' :: names)) with (PStr n :: map PStr (n' :: names)).
  cbn [Py.join map] in *. rewrite IH. reflexivity.
Qed.

Lemma names_of (items : list pyval) (names : list string) :
  Forall2 (fun c n => Py.subscript c "name" = Ok (PStr n)) items names ->
  mapM (fun c => Py.subscript c "name") items = Ok (map PStr names).
Proof.
  induction 1 as [|c n items names Hc _ IH]; [reflexivity|].
  simpl. rewrite Hc. cbn [bind]. rewrite IH. reflexivity.
Qed.

(** X25: Labels is the labels joined with ", " in their order, and
    Components and Fix Versions are the [name]s of their objects joined
    the same way: no separator around a single item, empty text for an
    empty list. *)
Theorem lists_are_joined
  (parse : string -> pyresult datetime) (issue : pyval)
  (f : list (string * pyval)) (r : row) :
  normalize parse issue = Ok r ->
  Py.get issue "fields" empty_dict = Ok (PDict f) ->
  (forall labels,
      Py.lookup "labels" f = Some (PList (map PStr labels)) ->
      Labels r = PStr (String.concat ", " labels)) /\
  (forall items names,
      Py.lookup "components" f = Some (PList items) ->
      Forall2 (fun c n => Py.subscript c "name" = Ok (PStr n)) items names ->
      Components r = PStr (String.concat ", " names)) /\
  (forall items names,
      Py.lookup "fixVersions" f = Some (PList items) ->
      Forall2 (fun c n => Py.subscript c "name" = Ok (PStr n)) items names ->
      Fix_Versions r = PStr (String.concat ", " names)).
Proof.
  intros Hn Hf.
  apply normalize_row in Hn
    as (key & fields & project_info & issuetype_info & reporter & assignee & time_estimate
        & _ & Hf' & _ & _ & _ & _ & _ & _ & _ & _ & _ & _ & _ & _ & _ & _
        & Hcomp & Hfix & (lv & items & s & Hlv & Hil & Hlab & Hr) & _).
  rewrite Hf in Hf'. injection Hf' as <-.
  assert (Hjoined : forall k its names x,
             Py.lookup k f = Some (PList its) ->
             Forall2 (fun c n => Py.subscript c "name" = Ok (PStr n)) its names ->
             joined_names (PDict f) k = Ok x ->
             x = PStr (String.concat ", " names)).
  { intros k its names x Hk Hnames Hx. unfold joined_names in Hx.
    rewrite get_dict in Hx. unfold value_or in Hx. rewrite Hk in Hx.
    cbn [bind Py.iter] in Hx. rewrite (names_of _ _ Hnames) in Hx.
    cbn [bind] in Hx. rewrite join_concat in Hx. cbn [bind] in Hx. congruence. }
  split; [|split].
  - intros labels Hl. rewrite get_dict in Hlv. unfold value_or in Hlv.
    rewrite Hl in Hlv. injection Hlv as <-. cbn [Py.iter] in Hil.
    injection Hil as <-. rewrite join_concat in Hlab. congruence.
  - intros its names Hk Hnames. apply (Hjoined _ _ _ _ Hk Hnames Hcomp).
  - intros its names Hk Hnames. apply (Hjoined _ _ _ _ Hk Hnames Hfix).
Qed.

Lemma lists_are_joined_witness :
  exists r,
    normalize fromisoformat issue_complete = Ok r /\
    Labels r = PStr "regression" /\ Components r = PStr "web, api" /\
    Fix_Versions r = PStr "".
Proof.
  destruct (normalize fromisoformat issue_complete) as [r|e] eqn:Hn; [|discriminate Hn].
  exists r. split; [reflexivity|].
  destruct (lists_are_joined fromisoformat issue_complete _ r Hn eq_refl)
    as (Hl & Hc & Hv).
  split; [apply (Hl ["regression"]); reflexivity|].
  split.
  - apply (Hc [PDict [("name", PStr "web")]; PDict [("name", PStr "api")]] ["web"; "api"]).
    + reflexivity.
    + repeat constructor.
  - apply (Hv [] []); [reflexivity | constructor].
Defined.
